(** * GenSen sentence-similarity notebook: a shallow embedding

    Source: [examples/sentence_similarity/gensen_local.ipynb].

    The notebook is a straight-line Python script.  Its code cells are
    embedded one by one as computations in a small monad that threads the
    log of calls leaving the notebook and stops at the first exception;
    the fit cell runs under the [%%time] magic, which catches the
    exception of its body.  The global names the cells assign data to are
    the fields of [Globals]; a name that has not been assigned yet is
    [None] and reading it raises [NameError].

    The functions the notebook imports from [utils_nlp] and from
    [gensen_wrapper] are not part of the file; what the notebook's text and
    its recorded outputs say about them is modelled in the modules [Snli],
    [Preprocess] and [Wrapper], and everything beyond that (the modules to
    import, Python's case mapping, the corpus files, the NLTK tokenizer, the
    neural network, scrapbook) is a field of [World]. *)

From Stdlib Require Import List String Ascii Bool Arith NArith Lia.
From Stdlib Require Import Reals Lra.
Import ListNotations.

Local Open Scope string_scope.
Local Open Scope list_scope.

(** ** Data model *)

(** A Python [str] held in a frame: a sequence of Unicode code points. *)
Definition pystr : Type := list N.

(** The [str] of an ASCII literal. *)
Definition str (s : string) : pystr :=
  map (fun c => N.of_nat (nat_of_ascii c)) (list_ascii_of_string s).

(** A cell of a pandas frame: text, a token list, or a missing value. *)
Inductive cell : Type :=
| Text (s : pystr)
| Tokens (ts : list pystr)
| NaN.

(** A frame: column labels and rows of cells, one cell per column. *)
Record DataFrame : Type := mkDF {
  columns : list string;
  rows : list (list cell)
}.

(** [utils_nlp.dataset.Split] *)
Inductive Split : Type := TRAIN | DEV | TEST.

(** A frame of numbers, as returned by [clf.predict]. *)
Definition Matrix : Type := list (list R).

(** [DataFrame.to_dict()]: column label -> (row label -> value). *)
Definition Dict : Type := list (nat * list (nat * R)).

Inductive exn : Type :=
| NameError (name : string)
| ModuleNotFoundError (name : string)
| KeyError (label : string)
| TypeError
| ExternalError (msg : string).

Inductive result (A : Type) : Type :=
| Ok (a : A)
| Raise (e : exn).
Arguments Ok {A} a.
Arguments Raise {A} e.

(** ** Frame helpers (the pandas operations the model needs) *)

Fixpoint select {A} (mask : list bool) (xs : list A) : list A :=
  match mask, xs with
  | b :: mask', x :: xs' =>
      if b then x :: select mask' xs' else select mask' xs'
  | _, _ => []
  end.

Definition mem (x : string) (l : list string) : bool :=
  existsb (String.eqb x) l.

Fixpoint index_of (x : string) (l : list string) : option nat :=
  match l with
  | [] => None
  | y :: l' => if String.eqb x y then Some 0%nat
               else option_map S (index_of x l')
  end.

(** [df.drop(labels, axis=1)]: a label that is not a column is a KeyError. *)
Definition drop_columns (labels : list string) (df : DataFrame)
  : result DataFrame :=
  match find (fun l => negb (mem l (columns df))) labels with
  | Some l => Raise (KeyError l)
  | None =>
      let mask := map (fun c => negb (mem c labels)) (columns df) in
      Ok (mkDF (select mask (columns df)) (map (select mask) (rows df)))
  end.

(** [df.rename(columns={old: new})] *)
Definition rename_column (old new : string) (df : DataFrame) : DataFrame :=
  mkDF (map (fun c => if String.eqb c old then new else c) (columns df))
       (rows df).

(** [df.applymap(f)] *)
Definition applymap (f : cell -> cell) (df : DataFrame) : DataFrame :=
  mkDF (columns df) (map (map f) (rows df)).

Fixpoint map_result {A B} (f : A -> result B) (l : list A)
  : result (list B) :=
  match l with
  | [] => Ok []
  | x :: l' =>
      match f x with
      | Raise e => Raise e
      | Ok y => match map_result f l' with
                | Raise e => Raise e
                | Ok ys => Ok (y :: ys)
                end
      end
  end.

(** ** [utils_nlp.dataset.snli] *)

Module Snli.

Definition LABEL_COL : string := "score".

(** The columns of a frame read from the SNLI corpus, as the output of
    [train.head()] lists them. *)
Definition corpus_columns : list string :=
  [ "gold_label"; "sentence1_binary_parse"; "sentence2_binary_parse";
    "sentence1_parse"; "sentence2_parse"; "sentence1"; "sentence2";
    "captionID"; "pairID"; "label1"; "label2"; "label3"; "label4";
    "label5" ].

Definition unnecessary_columns : list string :=
  [ "sentence1_binary_parse"; "sentence2_binary_parse";
    "sentence1_parse"; "sentence2_parse"; "captionID"; "pairID";
    "label1"; "label2"; "label3"; "label4"; "label5" ].

(** Modelled from the spec: [snli.clean_cols] is missing from the source.
    The notebook describes it as "dropping unneccessary columns and
    renaming the relevant columns", and the frames it prints before and
    after show which: of the corpus columns only [gold_label],
    [sentence1] and [sentence2] remain, the first under the name
    [score]. *)
Definition clean_cols (df : DataFrame) : result DataFrame :=
  match drop_columns unnecessary_columns df with
  | Raise e => Raise e
  | Ok df' => Ok (rename_column "gold_label" LABEL_COL df')
  end.

(** Modelled from the spec: [snli.clean_rows] is missing from the source.
    It cleans the frame row by row: the rows it accepts are kept, in
    order and unchanged.  Which rows it accepts is not described; the
    test is the parameter [row_ok]. *)
Definition clean_rows (row_ok : list cell -> bool) (df : DataFrame)
  : result DataFrame :=
  Ok (mkDF (columns df) (filter row_ok (rows df))).

End Snli.

(** ** [utils_nlp.dataset.preprocess] *)

Module Preprocess.

Definition lower_cell (str_lower : pystr -> pystr) (c : cell) : cell :=
  match c with
  | Text s => Text (str_lower s)
  | other => other
  end.

(** Modelled from the spec: [preprocess.to_lowercase] is missing from the
    source.  The notebook calls it "lowercase standardization": every
    text cell is replaced by its lower-case form.  Lower-casing a [str] is
    Python's own [str.lower]; it is the parameter [str_lower]. *)
Definition to_lowercase (str_lower : pystr -> pystr) (df : DataFrame)
  : result DataFrame :=
  Ok (applymap (lower_cell str_lower) df).

Definition token_cols : list string :=
  ["sentence1_tokens"; "sentence2_tokens"].

Definition tokenize_row (word_tokenize : pystr -> list pystr)
    (i j : nat) (r : list cell) : result (list cell) :=
  match nth_error r i, nth_error r j with
  | Some (Text a), Some (Text b) =>
      Ok (r ++ [Tokens (word_tokenize a); Tokens (word_tokenize b)])
  | _, _ => Raise TypeError
  end.

(** Modelled from the spec: [preprocess.to_nltk_tokens] is missing from
    the source.  The notebook "convert[s] sentences to tokens" with the
    NLTK tokenizer; the frame printed by [dev.head()] keeps the columns it
    had and gains [sentence1_tokens] and [sentence2_tokens].  The
    tokenizer itself belongs to NLTK and is the parameter
    [word_tokenize]. *)
Definition to_nltk_tokens (word_tokenize : pystr -> list pystr)
    (df : DataFrame) : result DataFrame :=
  match index_of "sentence1" (columns df),
        index_of "sentence2" (columns df) with
  | Some i, Some j =>
      match map_result (tokenize_row word_tokenize i j) (rows df) with
      | Raise e => Raise e
      | Ok rs => Ok (mkDF (columns df ++ token_cols) rs)
      end
  | None, _ => Raise (KeyError "sentence1")
  | _, None => Raise (KeyError "sentence2")
  end.

End Preprocess.

(** ** [examples.sentence_similarity.gensen_wrapper] *)

Module Wrapper.

Local Open Scope R_scope.

Definition sum (xs : list R) : R := fold_right Rplus 0 xs.

Definition mean (xs : list R) : R := sum xs / INR (List.length xs).

(** Sum of the products of the deviations from the means. *)
Definition codev (xs ys : list R) : R :=
  sum (map (fun p => (fst p - mean xs) * (snd p - mean ys))
           (combine xs ys)).

(** Pearson's correlation coefficient of two samples. *)
Definition pearson (xs ys : list R) : R :=
  codev xs ys / sqrt (codev xs xs * codev ys ys).

Definition corr (vs : list (list R)) : Matrix :=
  map (fun a => map (fun b => pearson a b) vs) vs.

(** Modelled from the spec: [GenSenClassifier.predict] is missing from the
    source.  The notebook says of it "In the predict method we perform
    Pearson's Correlation computation on the outputs of the model", and
    the spec calls the reported value "a correlation metric": the result
    is the matrix of pairwise Pearson coefficients of the sentence
    representations.  The representations come out of the trained
    network; they are the parameter [represent].  Numbers are real
    numbers here, not machine floats. *)
Definition predict {Clf : Type}
    (represent : Clf -> list string -> result (list (list R)))
    (clf : Clf) (sentences : list string) : result Matrix :=
  match represent clf sentences with
  | Raise e => Raise e
  | Ok reps => Ok (corr reps)
  end.

End Wrapper.

(** [DataFrame.to_dict()] of a frame of numbers with the default integer
    labels: for each column label, the values of that column by row
    label. *)
Definition column_dict (m : Matrix) (j : nat) : list (nat * R) :=
  combine (seq 0 (List.length m)) (map (fun row => nth j row 0%R) m).

Definition to_dict (m : Matrix) : Dict :=
  map (fun j => (j, column_dict m j)) (seq 0 (List.length (hd [] m))).

(** ** What lies outside the notebook *)

Record World : Type := {
  (** the state of a [GenSenClassifier] object *)
  Clf : Type;
  (** [sys.version] *)
  sys_version : string;
  (** an [import] statement: the module, and the names taken from it *)
  import_module : string -> list string -> result unit;
  (** Python's [str.lower] *)
  str_lower : pystr -> pystr;
  (** Python's [str.isupper] on a single character *)
  char_isupper : N -> bool;
  (** [snli.load_pandas_df(base_data_path, file_split=, nrows=)] *)
  load_pandas_df : string -> Split -> option nat -> result DataFrame;
  (** the row test of [snli.clean_rows] *)
  row_ok : list cell -> bool;
  (** [nltk.word_tokenize] *)
  word_tokenize : pystr -> list pystr;
  (** [download_and_extract(base_data_path)]: the path it returns *)
  download_and_extract : string -> result string;
  (** [GenSenClassifier(config_file=, pretrained_embedding_path=,
      learning_rate=, cache_dir=, max_epoch=)] *)
  GenSenClassifier :
    string -> string -> R -> string -> option nat -> result Clf;
  (** [clf.fit(train, dev, test)] works on the object itself: the
      exception it raises, if any, and the object as the call leaves it,
      whether it returned or raised *)
  fit_raises : Clf -> DataFrame -> DataFrame -> DataFrame -> option exn;
  fit_leaves : Clf -> DataFrame -> DataFrame -> DataFrame -> Clf;
  (** the sentence representations computed by the network *)
  represent : Clf -> list string -> result (list (list R));
  (** [sb.glue(name, value)] *)
  sb_glue : string -> Dict -> result unit
}.

(** ** Calls leaving the notebook

    [Magic_time] is the entry into IPython's [%%time] magic and
    [Time_report] its end: with [None] it prints the CPU and wall times,
    with [Some e] it has caught [e] and shows the traceback instead. *)

Inductive printable : Type :=
| PStr (s : string)
| PFrame (m : Matrix).

Inductive event : Type :=
| Call_import (module : string) (names : list string)
| Call_sys_path_append (p : string)
| Call_format (template arg : string)
| Call_print (x : printable)
| Call_load_pandas_df (path : string) (file_split : Split)
                      (nrows : option nat)
| Call_head (df : DataFrame)
| Call_clean_cols (df : DataFrame)
| Call_clean_rows (df : DataFrame)
| Call_to_lowercase (df : DataFrame)
| Call_to_nltk_tokens (df : DataFrame)
| Call_download_and_extract (path : string)
| Call_GenSenClassifier (config_file pretrained_embedding_path : string)
                        (learning_rate : R) (cache_dir : string)
                        (max_epoch : option nat)
| Magic_time
| Call_fit (train dev test : DataFrame)
| Time_report (caught : option exn)
| Call_predict (sentences : list string)
| Call_to_dict (m : Matrix)
| Call_glue (name : string) (value : Dict).

(** ** The monad of notebook code: a call log and exceptions *)

Definition M (A : Type) : Type := list event -> result A * list event.

Definition ret {A} (a : A) : M A := fun tr => (Ok a, tr).

Definition bind {A B} (m : M A) (f : A -> M B) : M B :=
  fun tr =>
    match m tr with
    | (Ok a, tr') => f a tr'
    | (Raise e, tr') => (Raise e, tr')
    end.

Definition raise {A} (e : exn) : M A := fun tr => (Raise e, tr).

(** An external call: it is logged, then it returns or raises. *)
Definition call {A} (ev : event) (r : result A) : M A :=
  fun tr => (r, tr ++ [ev]).

(** Reading a global name. *)
Definition rd {A} (name : string) (v : option A) : M A :=
  match v with
  | Some a => ret a
  | None => raise (NameError name)
  end.

Declare Scope nb_scope.
Delimit Scope nb_scope with nb.
Notation "x <- m ;; k" := (bind m (fun x => k))
  (at level 61, m at next level, right associativity) : nb_scope.
Notation "m ;; k" := (bind m (fun _ => k))
  (at level 61, right associativity) : nb_scope.

(** The literal [0.0001]. *)
Definition learning_rate_literal : R := 0.0001%R.

(** ** The notebook *)

Section Notebook.

Variable W : World.

Local Open Scope nb_scope.

(** The global names the code cells assign data to.  The imported names
    and the function [clean_and_tokenize] are bound as well; they have no
    field here, and a cell that uses one is taken to run after the cell
    that binds it. *)
Record Globals : Type := mkGlobals {
  max_epoch : option (option nat);
  config_filepath : option string;
  base_data_path : option string;
  nrows : option (option nat);
  train : option DataFrame;
  dev : option DataFrame;
  test : option DataFrame;
  pretrained_embedding_path : option string;
  clf : option (Clf W);
  sentences : option (list string);
  results : option Matrix
}.

Definition fresh : Globals :=
  mkGlobals None None None None None None None None None None None.

Definition set_train (v : DataFrame) (g : Globals) : Globals :=
  mkGlobals (max_epoch g) (config_filepath g) (base_data_path g) (nrows g)
    (Some v) (dev g) (test g) (pretrained_embedding_path g) (clf g)
    (sentences g) (results g).

Definition set_dev (v : DataFrame) (g : Globals) : Globals :=
  mkGlobals (max_epoch g) (config_filepath g) (base_data_path g) (nrows g)
    (train g) (Some v) (test g) (pretrained_embedding_path g) (clf g)
    (sentences g) (results g).

Definition set_test (v : DataFrame) (g : Globals) : Globals :=
  mkGlobals (max_epoch g) (config_filepath g) (base_data_path g) (nrows g)
    (train g) (dev g) (Some v) (pretrained_embedding_path g) (clf g)
    (sentences g) (results g).

Definition set_pretrained_embedding_path (v : string) (g : Globals)
  : Globals :=
  mkGlobals (max_epoch g) (config_filepath g) (base_data_path g) (nrows g)
    (train g) (dev g) (test g) (Some v) (clf g)
    (sentences g) (results g).

Definition set_clf (v : Clf W) (g : Globals) : Globals :=
  mkGlobals (max_epoch g) (config_filepath g) (base_data_path g) (nrows g)
    (train g) (dev g) (test g) (pretrained_embedding_path g) (Some v)
    (sentences g) (results g).

Definition set_sentences (v : list string) (g : Globals) : Globals :=
  mkGlobals (max_epoch g) (config_filepath g) (base_data_path g) (nrows g)
    (train g) (dev g) (test g) (pretrained_embedding_path g) (clf g)
    (Some v) (results g).

Definition set_results (v : Matrix) (g : Globals) : Globals :=
  mkGlobals (max_epoch g) (config_filepath g) (base_data_path g) (nrows g)
    (train g) (dev g) (test g) (pretrained_embedding_path g) (clf g)
    (sentences g) (Some v).

(** [df.head()]: the first five rows. *)
Definition head (df : DataFrame) : DataFrame :=
  mkDF (columns df) (firstn 5 (rows df)).

(** Code cell 1: imports and the version banner.
<<
    import sys
    sys.path.append("../..")

    import os
    import papermill as pm
    import scrapbook as sb

    from utils_nlp.dataset.preprocess import to_lowercase, to_nltk_tokens
    from utils_nlp.dataset import snli, preprocess
    from utils_nlp.models.pretrained_embeddings.glove import download_and_extract
    from utils_nlp.dataset import Split
    from examples.sentence_similarity.gensen_wrapper import GenSenClassifier

    print("System version: {}".format(sys.version))
>> *)
Definition cell_imports (g : Globals) : M Globals :=
  call (Call_import "sys" []) (import_module W "sys" []) ;;
  call (Call_sys_path_append "../..") (Ok tt) ;;
  call (Call_import "os" []) (import_module W "os" []) ;;
  call (Call_import "papermill" []) (import_module W "papermill" []) ;;
  call (Call_import "scrapbook" []) (import_module W "scrapbook" []) ;;
  call (Call_import "utils_nlp.dataset.preprocess"
          ["to_lowercase"; "to_nltk_tokens"])
       (import_module W "utils_nlp.dataset.preprocess"
          ["to_lowercase"; "to_nltk_tokens"]) ;;
  call (Call_import "utils_nlp.dataset" ["snli"; "preprocess"])
       (import_module W "utils_nlp.dataset" ["snli"; "preprocess"]) ;;
  call (Call_import "utils_nlp.models.pretrained_embeddings.glove"
          ["download_and_extract"])
       (import_module W "utils_nlp.models.pretrained_embeddings.glove"
          ["download_and_extract"]) ;;
  call (Call_import "utils_nlp.dataset" ["Split"])
       (import_module W "utils_nlp.dataset" ["Split"]) ;;
  call (Call_import "examples.sentence_similarity.gensen_wrapper"
          ["GenSenClassifier"])
       (import_module W "examples.sentence_similarity.gensen_wrapper"
          ["GenSenClassifier"]) ;;
  banner <- call (Call_format "System version: {}" (sys_version W))
                 (Ok ("System version: " ++ sys_version W)%string) ;;
  call (Call_print (PStr banner)) (Ok tt) ;;
  ret g.

(** Code cell 2 (tagged "parameters").
<<
    max_epoch = None
    config_filepath = 'gensen_config.json'
    base_data_path = '../../data'
    nrows = None
>> *)
Definition cell_parameters (g : Globals) : M Globals :=
  ret (mkGlobals (Some None) (Some "gensen_config.json")
         (Some "../../data") (Some None)
         (train g) (dev g) (test g) (pretrained_embedding_path g) (clf g)
         (sentences g) (results g)).

(** Code cell 3.
<<
    train = snli.load_pandas_df(base_data_path, file_split=Split.TRAIN, nrows=nrows)
    dev = snli.load_pandas_df(base_data_path, file_split=Split.DEV, nrows=nrows)
    test = snli.load_pandas_df(base_data_path, file_split=Split.TEST, nrows=nrows)
    train.head()
>> *)
Definition cell_load (g : Globals) : M Globals :=
  p <- rd "base_data_path" (base_data_path g) ;;
  n <- rd "nrows" (nrows g) ;;
  d <- call (Call_load_pandas_df p TRAIN n) (load_pandas_df W p TRAIN n) ;;
  let g := set_train d g in
  p <- rd "base_data_path" (base_data_path g) ;;
  n <- rd "nrows" (nrows g) ;;
  d <- call (Call_load_pandas_df p DEV n) (load_pandas_df W p DEV n) ;;
  let g := set_dev d g in
  p <- rd "base_data_path" (base_data_path g) ;;
  n <- rd "nrows" (nrows g) ;;
  d <- call (Call_load_pandas_df p TEST n) (load_pandas_df W p TEST n) ;;
  let g := set_test d g in
  t <- rd "train" (train g) ;;
  call (Call_head t) (Ok (head t)) ;;
  ret g.

(**
<<
    def clean_and_tokenize(df):
        df = snli.clean_cols(df)
        df = snli.clean_rows(df)
        df = preprocess.to_lowercase(df)
        df = preprocess.to_nltk_tokens(df)
        return df
>> *)
Definition clean_and_tokenize (df : DataFrame) : M DataFrame :=
  df <- call (Call_clean_cols df) (Snli.clean_cols df) ;;
  df <- call (Call_clean_rows df) (Snli.clean_rows (row_ok W) df) ;;
  df <- call (Call_to_lowercase df)
             (Preprocess.to_lowercase (str_lower W) df) ;;
  df <- call (Call_to_nltk_tokens df)
             (Preprocess.to_nltk_tokens (word_tokenize W) df) ;;
  ret df.

(** Code cell 4, after the definition above.
<<
    train = clean_and_tokenize(train)
    dev = clean_and_tokenize(dev)
    test = clean_and_tokenize(test)
>> *)
Definition cell_tokenize (g : Globals) : M Globals :=
  t <- rd "train" (train g) ;;
  t <- clean_and_tokenize t ;;
  let g := set_train t g in
  d <- rd "dev" (dev g) ;;
  d <- clean_and_tokenize d ;;
  let g := set_dev d g in
  s <- rd "test" (test g) ;;
  s <- clean_and_tokenize s ;;
  let g := set_test s g in
  ret g.

(** Code cell 5: [dev.head()] *)
Definition cell_dev_head (g : Globals) : M Globals :=
  d <- rd "dev" (dev g) ;;
  call (Call_head d) (Ok (head d)) ;;
  ret g.

(** Code cell 6:
    [pretrained_embedding_path = download_and_extract(base_data_path)] *)
Definition cell_download (g : Globals) : M Globals :=
  p <- rd "base_data_path" (base_data_path g) ;;
  e <- call (Call_download_and_extract p) (download_and_extract W p) ;;
  ret (set_pretrained_embedding_path e g).

(** Code cell 7.
<<
    clf = GenSenClassifier(config_file = config_filepath,
                           pretrained_embedding_path = pretrained_embedding_path,
                           learning_rate = 0.0001,
                           cache_dir=base_data_path,
                           max_epoch=max_epoch)
>> *)
Definition cell_init (g : Globals) : M Globals :=
  cfg <- rd "config_filepath" (config_filepath g) ;;
  emb <- rd "pretrained_embedding_path" (pretrained_embedding_path g) ;;
  let lr := learning_rate_literal in
  dir <- rd "base_data_path" (base_data_path g) ;;
  ep <- rd "max_epoch" (max_epoch g) ;;
  c <- call (Call_GenSenClassifier cfg emb lr dir ep)
            (GenSenClassifier W cfg emb lr dir ep) ;;
  ret (set_clf c g).

(** The timed expression [clf.fit(train, dev, test)]: the names are
    looked up from left to right, then the method is called.  The result
    is the exception raised, if any, the global names afterwards and the
    log.  The call works on the object [clf] is bound to, so the name
    refers to the object as the call left it, also when the call
    raised. *)
Definition timed_fit (g : Globals) (tr : list event)
  : option exn * Globals * list event :=
  match clf g, train g, dev g, test g with
  | None, _, _, _ => (Some (NameError "clf"), g, tr)
  | Some _, None, _, _ => (Some (NameError "train"), g, tr)
  | Some _, Some _, None, _ => (Some (NameError "dev"), g, tr)
  | Some _, Some _, Some _, None => (Some (NameError "test"), g, tr)
  | Some c, Some t, Some d, Some s =>
      (fit_raises W c t d s, set_clf (fit_leaves W c t d s) g,
       tr ++ [Call_fit t d s])
  end.

(** Code cell 8.
<<
    %%time
    clf.fit(train, dev, test)
>>
    The cell is handed to IPython's [%%time] magic, as it is in the
    IPython releases that run on the Python 3.6.8 the notebook records.
    The magic evaluates the expression; when that raises, it catches the
    exception, shows the traceback and returns, so the cell ends normally
    and the cells after it still run; otherwise it prints the CPU and wall
    times. *)
Definition cell_fit (g : Globals) : M Globals :=
  fun tr =>
    match timed_fit g (tr ++ [Magic_time]) with
    | (caught, g', tr') => (Ok g', tr' ++ [Time_report caught])
    end.

Definition the_sentences : list string :=
  [ "The sky is blue and beautiful";
    "Love this blue and beautiful sky!" ].

(** Code cell 9.
<<
    sentences = [
            'The sky is blue and beautiful',
            'Love this blue and beautiful sky!'
        ]
    results = clf.predict(sentences)
    print("******** Similarity Score for sentences **************")
    print(results)

    # Record results with scrapbook for tests
    sb.glue("results", results.to_dict())
>> *)
Definition cell_predict (g : Globals) : M Globals :=
  let g := set_sentences the_sentences g in
  c <- rd "clf" (clf g) ;;
  s <- rd "sentences" (sentences g) ;;
  r <- call (Call_predict s) (Wrapper.predict (represent W) c s) ;;
  let g := set_results r g in
  call (Call_print
          (PStr "******** Similarity Score for sentences **************"))
       (Ok tt) ;;
  r <- rd "results" (results g) ;;
  call (Call_print (PFrame r)) (Ok tt) ;;
  r <- rd "results" (results g) ;;
  d <- call (Call_to_dict r) (Ok (to_dict r)) ;;
  call (Call_glue "results" d) (sb_glue W "results" d) ;;
  ret g.

(** The code cells in the order of the file, grouped under the
    notebook's own headings. *)

(** "0. Global Settings" *)
Definition global_settings (g : Globals) : M Globals :=
  g <- cell_imports g ;;
  cell_parameters g.

(** "1. Data Preparation and inspection" *)
Definition data_preparation (g : Globals) : M Globals :=
  g <- cell_load g ;;
  g <- cell_tokenize g ;;
  cell_dev_head g.

(** "2. Model application, performance and analysis of the results" *)
Definition model_application (g : Globals) : M Globals :=
  g <- cell_download g ;;
  g <- cell_init g ;;
  g <- cell_fit g ;;
  cell_predict g.

Definition notebook : M Globals :=
  g <- global_settings fresh ;;
  g <- data_preparation g ;;
  model_application g.

(** A run of the whole notebook from a fresh kernel. *)
Definition run : result Globals * list event := notebook [].

(** A run that stops after section 1. *)
Definition run_data_preparation : result Globals * list event :=
  (g <- global_settings fresh ;; data_preparation g) [].

(** The four cleaning steps as one function on results. *)
Definition and_then {A B} (r : result A) (f : A -> result B) : result B :=
  match r with
  | Ok a => f a
  | Raise e => Raise e
  end.

Definition pipeline (df : DataFrame) : result DataFrame :=
  and_then (and_then (and_then (Snli.clean_cols df)
                               (Snli.clean_rows (row_ok W)))
                     (Preprocess.to_lowercase (str_lower W)))
           (Preprocess.to_nltk_tokens (word_tokenize W)).

(** The calls [clean_and_tokenize df] makes, in the order it makes
    them; a step is only reached when the one before it returned. *)
Definition cleaning_calls (df : DataFrame) : list event :=
  Call_clean_cols df ::
  match Snli.clean_cols df with
  | Raise _ => []
  | Ok d1 =>
      Call_clean_rows d1 ::
      match Snli.clean_rows (row_ok W) d1 with
      | Raise _ => []
      | Ok d2 =>
          Call_to_lowercase d2 ::
          match Preprocess.to_lowercase (str_lower W) d2 with
          | Raise _ => []
          | Ok d3 => [Call_to_nltk_tokens d3]
          end
      end
  end.

End Notebook.

Arguments fresh {W}.

(** ** Reading the call log *)

(** The stages of the script. *)
Inductive stage : Type :=
| LoadData | CleanAndTokenize | Instantiate | Fit | Predict | Report.

(** The stage a call belongs to; set-up and inspection calls belong to
    none. *)
Definition stage_of (e : event) : option stage :=
  match e with
  | Call_load_pandas_df _ _ _ => Some LoadData
  | Call_clean_cols _ | Call_clean_rows _
  | Call_to_lowercase _ | Call_to_nltk_tokens _ => Some CleanAndTokenize
  | Call_GenSenClassifier _ _ _ _ _ => Some Instantiate
  | Call_fit _ _ _ => Some Fit
  | Call_predict _ => Some Predict
  | Call_print (PFrame _) | Call_to_dict _ | Call_glue _ _ => Some Report
  | Call_print (PStr _) | Call_sys_path_append _ | Call_head _
  | Call_download_and_extract _ | Call_import _ _ | Call_format _ _
  | Magic_time | Time_report _ => None
  end.

Definition stage_eqb (a b : stage) : bool :=
  match a, b with
  | LoadData, LoadData | CleanAndTokenize, CleanAndTokenize
  | Instantiate, Instantiate | Fit, Fit | Predict, Predict
  | Report, Report => true
  | _, _ => false
  end.

Fixpoint stages (tr : list event) : list stage :=
  match tr with
  | [] => []
  | e :: tr' => match stage_of e with
                | Some s => s :: stages tr'
                | None => stages tr'
                end
  end.

(** Consecutive calls of one stage count as one occurrence of it. *)
Fixpoint collapse (l : list stage) : list stage :=
  match l with
  | [] => []
  | a :: l' => match l' with
               | b :: _ => if stage_eqb a b then collapse l'
                           else a :: collapse l'
               | [] => [a]
               end
  end.

Definition stage_order : list stage :=
  [LoadData; CleanAndTokenize; Instantiate; Fit; Predict; Report].

(** The stage of every call of a complete run that belongs to a stage:
    three loads, four cleaning steps on each of the three frames, the
    constructor, [fit], [predict], and the three calls that report. *)
Definition script_stages : list stage :=
  [ LoadData; LoadData; LoadData;
    CleanAndTokenize; CleanAndTokenize; CleanAndTokenize; CleanAndTokenize;
    CleanAndTokenize; CleanAndTokenize; CleanAndTokenize; CleanAndTokenize;
    CleanAndTokenize; CleanAndTokenize; CleanAndTokenize; CleanAndTokenize;
    Instantiate; Fit; Predict; Report; Report; Report ].

Fixpoint is_prefix {A} (eqb : A -> A -> bool) (l m : list A) : bool :=
  match l, m with
  | [], _ => true
  | a :: l', b :: m' => eqb a b && is_prefix eqb l' m'
  | _ :: _, [] => false
  end.

(** Whom a call goes to. *)
Inductive collaborator : Type :=
| SnliDataset       (* utils_nlp.dataset.snli *)
| Preprocessing     (* utils_nlp.dataset.preprocess *)
| VectorDownloader  (* utils_nlp.models.pretrained_embeddings.glove *)
| ModelWrapper      (* examples.sentence_similarity.gensen_wrapper *)
| Scrapbook         (* scrapbook *)
| PythonBuiltin     (* import, sys, str.format, print *)
| IPythonMagic      (* the %%time cell magic *)
| FrameMethod.      (* methods of a pandas frame *)

Definition collaborator_of (e : event) : collaborator :=
  match e with
  | Call_load_pandas_df _ _ _ | Call_clean_cols _ | Call_clean_rows _ =>
      SnliDataset
  | Call_to_lowercase _ | Call_to_nltk_tokens _ => Preprocessing
  | Call_download_and_extract _ => VectorDownloader
  | Call_GenSenClassifier _ _ _ _ _ | Call_fit _ _ _ | Call_predict _ =>
      ModelWrapper
  | Call_glue _ _ => Scrapbook
  | Call_import _ _ | Call_sys_path_append _ | Call_format _ _
  | Call_print _ => PythonBuiltin
  | Magic_time | Time_report _ => IPythonMagic
  | Call_head _ | Call_to_dict _ => FrameMethod
  end.

Definition collaborator_eqb (a b : collaborator) : bool :=
  match a, b with
  | SnliDataset, SnliDataset | Preprocessing, Preprocessing
  | VectorDownloader, VectorDownloader | ModelWrapper, ModelWrapper
  | Scrapbook, Scrapbook | PythonBuiltin, PythonBuiltin
  | IPythonMagic, IPythonMagic | FrameMethod, FrameMethod => true
  | _, _ => false
  end.

Definition goes_through (cs : list collaborator) (e : event) : bool :=
  existsb (collaborator_eqb (collaborator_of e)) cs.

(** The three collaborators of the system overview. *)
Definition three_collaborators : list collaborator :=
  [SnliDataset; VectorDownloader; ModelWrapper].

(** The ways of using the model wrapper. *)
Inductive wrapper_use : Type := Construct | CallFit | CallPredict.

Fixpoint wrapper_uses (tr : list event) : list wrapper_use :=
  match tr with
  | [] => []
  | Call_GenSenClassifier _ _ _ _ _ :: tr' => Construct :: wrapper_uses tr'
  | Call_fit _ _ _ :: tr' => CallFit :: wrapper_uses tr'
  | Call_predict _ :: tr' => CallPredict :: wrapper_uses tr'
  | _ :: tr' => wrapper_uses tr'
  end.

Definition wrapper_use_eqb (a b : wrapper_use) : bool :=
  match a, b with
  | Construct, Construct | CallFit, CallFit | CallPredict, CallPredict =>
      true
  | _, _ => false
  end.

(** The parties called in a complete run, call by call. *)
Definition script_collaborators : list collaborator :=
  [ PythonBuiltin; PythonBuiltin; PythonBuiltin; PythonBuiltin;
    PythonBuiltin; PythonBuiltin; PythonBuiltin; PythonBuiltin;
    PythonBuiltin; PythonBuiltin; PythonBuiltin; PythonBuiltin;
    SnliDataset; SnliDataset; SnliDataset; FrameMethod;
    SnliDataset; SnliDataset; Preprocessing; Preprocessing;
    SnliDataset; SnliDataset; Preprocessing; Preprocessing;
    SnliDataset; SnliDataset; Preprocessing; Preprocessing;
    FrameMethod;
    VectorDownloader; ModelWrapper;
    IPythonMagic; ModelWrapper; IPythonMagic;
    ModelWrapper;
    PythonBuiltin; PythonBuiltin; FrameMethod; Scrapbook ].

(** The arguments of the calls of [snli.load_pandas_df]. *)
Fixpoint load_calls (tr : list event)
  : list (string * Split * option nat) :=
  match tr with
  | [] => []
  | Call_load_pandas_df p sp n :: tr' => (p, sp, n) :: load_calls tr'
  | _ :: tr' => load_calls tr'
  end.

Definition load_eqb (a b : string * Split * option nat) : bool :=
  match a, b with
  | (p, sp, n), (p', sp', n') =>
      String.eqb p p' &&
      match sp, sp' with
      | TRAIN, TRAIN | DEV, DEV | TEST, TEST => true
      | _, _ => false
      end &&
      match n, n' with
      | None, None => true
      | Some k, Some k' => Nat.eqb k k'
      | _, _ => false
      end
  end.

Definition is_report (e : event) : bool :=
  match stage_of e with Some Report => true | _ => false end.

Definition is_wrapper_call (e : event) : bool :=
  match collaborator_of e with ModelWrapper => true | _ => false end.

Definition is_load (e : event) : bool :=
  match e with Call_load_pandas_df _ _ _ => true | _ => false end.

Definition is_fit (e : event) : bool :=
  match e with Call_fit _ _ _ => true | _ => false end.

Definition is_download_or_wrapper (e : event) : bool :=
  match e with
  | Call_download_and_extract _ => true
  | _ => is_wrapper_call e
  end.

(** ** Frames in the corpus layout and cleaned frames *)

Definition in_corpus_layout (df : DataFrame) : Prop :=
  columns df = Snli.corpus_columns /\
  Forall (fun r => List.length r = 14) (rows df).

Definition clean_columns : list string :=
  ["score"; "sentence1"; "sentence2"; "sentence1_tokens";
   "sentence2_tokens"].

(** A gold label, a sentence pair, and the tokens of the two sentences. *)
Definition clean_row (W : World) (r : list cell) : Prop :=
  exists label s1 s2,
    r = [ label; Text s1; Text s2;
          Tokens (word_tokenize W s1); Tokens (word_tokenize W s2) ].

Definition clean_frame (W : World) (df : DataFrame) : Prop :=
  columns df = clean_columns /\ Forall (clean_row W) (rows df).

(** No character of the tokens is upper-case. *)
Definition no_uppercase (W : World) (ts : list pystr) : Prop :=
  Forall (fun t => forallb (fun c => negb (char_isupper W c)) t = true) ts.

(** The cells between [clean_and_tokenize] and [clf.fit]. *)
Definition between_tokenize_and_fit (W : World) (g : Globals W)
  : M (Globals W) :=
  (g <- cell_dev_head W g ;;
   g <- cell_download W g ;;
   cell_init W g)%nb.

(** ** The values a complete run passes through *)

Record Intermediates (W : World) : Type := {
  loaded_train : DataFrame;
  loaded_dev : DataFrame;
  loaded_test : DataFrame;
  (** [train] after [clean_cols], [clean_rows], [to_lowercase] and
      [to_nltk_tokens] *)
  train_cols : DataFrame;
  train_rows : DataFrame;
  train_lower : DataFrame;
  train_clean : DataFrame;
  dev_cols : DataFrame;
  dev_rows : DataFrame;
  dev_lower : DataFrame;
  dev_clean : DataFrame;
  test_cols : DataFrame;
  test_rows : DataFrame;
  test_lower : DataFrame;
  test_clean : DataFrame;
  embedding_path : string;
  new_clf : Clf W;
  similarity : Matrix
}.

Arguments loaded_train {W}.
Arguments loaded_dev {W}.
Arguments loaded_test {W}.
Arguments train_cols {W}.
Arguments train_rows {W}.
Arguments train_lower {W}.
Arguments train_clean {W}.
Arguments dev_cols {W}.
Arguments dev_rows {W}.
Arguments dev_lower {W}.
Arguments dev_clean {W}.
Arguments test_cols {W}.
Arguments test_rows {W}.
Arguments test_lower {W}.
Arguments test_clean {W}.
Arguments embedding_path {W}.
Arguments new_clf {W}.
Arguments similarity {W}.

Definition similarity_banner : string :=
  "******** Similarity Score for sentences **************".

(** The classifier as the call of [fit] leaves it, and what the call
    raised. *)
Definition fitted_clf (W : World) (v : Intermediates W) : Clf W :=
  fit_leaves W (new_clf v) (train_clean v) (dev_clean v) (test_clean v).

Definition fit_exception (W : World) (v : Intermediates W) : option exn :=
  fit_raises W (new_clf v) (train_clean v) (dev_clean v) (test_clean v).

(** The imports of the first cell. *)
Definition imports : list (string * list string) :=
  [ ("sys", []); ("os", []); ("papermill", []); ("scrapbook", []);
    ("utils_nlp.dataset.preprocess", ["to_lowercase"; "to_nltk_tokens"]);
    ("utils_nlp.dataset", ["snli"; "preprocess"]);
    ("utils_nlp.models.pretrained_embeddings.glove",
     ["download_and_extract"]);
    ("utils_nlp.dataset", ["Split"]);
    ("examples.sentence_similarity.gensen_wrapper", ["GenSenClassifier"]) ].

Definition imports_return (W : World) : Prop :=
  Forall (fun i => import_module W (fst i) (snd i) = Ok tt) imports.

(** Each value is what the corresponding call returned.  The call of
    [fit] is not among them: the run goes on whether it returns or
    raises. *)
Definition returned (W : World) (v : Intermediates W) : Prop :=
  imports_return W /\
  load_pandas_df W "../../data" TRAIN None = Ok (loaded_train v) /\
  load_pandas_df W "../../data" DEV None = Ok (loaded_dev v) /\
  load_pandas_df W "../../data" TEST None = Ok (loaded_test v) /\
  Snli.clean_cols (loaded_train v) = Ok (train_cols v) /\
  Snli.clean_rows (row_ok W) (train_cols v) = Ok (train_rows v) /\
  Preprocess.to_lowercase (str_lower W) (train_rows v)
    = Ok (train_lower v) /\
  Preprocess.to_nltk_tokens (word_tokenize W) (train_lower v)
    = Ok (train_clean v) /\
  Snli.clean_cols (loaded_dev v) = Ok (dev_cols v) /\
  Snli.clean_rows (row_ok W) (dev_cols v) = Ok (dev_rows v) /\
  Preprocess.to_lowercase (str_lower W) (dev_rows v) = Ok (dev_lower v) /\
  Preprocess.to_nltk_tokens (word_tokenize W) (dev_lower v)
    = Ok (dev_clean v) /\
  Snli.clean_cols (loaded_test v) = Ok (test_cols v) /\
  Snli.clean_rows (row_ok W) (test_cols v) = Ok (test_rows v) /\
  Preprocess.to_lowercase (str_lower W) (test_rows v)
    = Ok (test_lower v) /\
  Preprocess.to_nltk_tokens (word_tokenize W) (test_lower v)
    = Ok (test_clean v) /\
  download_and_extract W "../../data" = Ok (embedding_path v) /\
  GenSenClassifier W "gensen_config.json" (embedding_path v)
    learning_rate_literal "../../data" None = Ok (new_clf v) /\
  Wrapper.predict (represent W) (fitted_clf W v) the_sentences
    = Ok (similarity v) /\
  sb_glue W "results" (to_dict (similarity v)) = Ok tt.

(** The calls of the first cell when every import returns. *)
Definition settings_log (W : World) : list event :=
  [ Call_import "sys" [];
    Call_sys_path_append "../..";
    Call_import "os" [];
    Call_import "papermill" [];
    Call_import "scrapbook" [];
    Call_import "utils_nlp.dataset.preprocess"
      ["to_lowercase"; "to_nltk_tokens"];
    Call_import "utils_nlp.dataset" ["snli"; "preprocess"];
    Call_import "utils_nlp.models.pretrained_embeddings.glove"
      ["download_and_extract"];
    Call_import "utils_nlp.dataset" ["Split"];
    Call_import "examples.sentence_similarity.gensen_wrapper"
      ["GenSenClassifier"];
    Call_format "System version: {}" (sys_version W);
    Call_print (PStr ("System version: " ++ sys_version W)) ].

(** The call log of a complete run. *)
Definition complete_log (W : World) (v : Intermediates W) : list event :=
  settings_log W ++
  [ Call_load_pandas_df "../../data" TRAIN None;
    Call_load_pandas_df "../../data" DEV None;
    Call_load_pandas_df "../../data" TEST None;
    Call_head (loaded_train v);
    Call_clean_cols (loaded_train v);
    Call_clean_rows (train_cols v);
    Call_to_lowercase (train_rows v);
    Call_to_nltk_tokens (train_lower v);
    Call_clean_cols (loaded_dev v);
    Call_clean_rows (dev_cols v);
    Call_to_lowercase (dev_rows v);
    Call_to_nltk_tokens (dev_lower v);
    Call_clean_cols (loaded_test v);
    Call_clean_rows (test_cols v);
    Call_to_lowercase (test_rows v);
    Call_to_nltk_tokens (test_lower v);
    Call_head (dev_clean v);
    Call_download_and_extract "../../data";
    Call_GenSenClassifier "gensen_config.json" (embedding_path v)
      learning_rate_literal "../../data" None;
    Magic_time;
    Call_fit (train_clean v) (dev_clean v) (test_clean v);
    Time_report (fit_exception W v);
    Call_predict the_sentences;
    Call_print (PStr similarity_banner);
    Call_print (PFrame (similarity v));
    Call_to_dict (similarity v);
    Call_glue "results" (to_dict (similarity v)) ].

(** The global names at the end of a complete run. *)
Definition complete_globals (W : World) (v : Intermediates W) : Globals W :=
  mkGlobals W (Some None) (Some "gensen_config.json") (Some "../../data")
    (Some None) (Some (train_clean v)) (Some (dev_clean v))
    (Some (test_clean v)) (Some (embedding_path v))
    (Some (fitted_clf W v)) (Some the_sentences) (Some (similarity v)).

(** ** Small worlds to run the notebook in *)

Module Demo.

(** A row in the corpus layout; the parse and annotation columns carry
    placeholders. *)
Definition corpus_row (label s1 s2 : cell) : list cell :=
  [ label; Text (str "( bp1 )"); Text (str "( bp2 )");
    Text (str "(ROOT p1)"); Text (str "(ROOT p2)"); s1; s2;
    Text (str "4705552913.jpg#2"); Text (str "4705552913.jpg#2r1n");
    Text (str "neutral"); NaN; NaN; NaN; NaN ].

Definition corpus (file_split : Split) : DataFrame :=
  mkDF Snli.corpus_columns
    match file_split with
    | TRAIN =>
        [ corpus_row (Text (str "neutral"))
            (Text (str "A person on a horse jumps"))
            (Text (str "A person is training his Horse"));
          corpus_row (Text (str "-"))
            (Text (str "Children smiling and waving"))
            (Text (str "They are smiling"));
          corpus_row (Text (str "entailment"))
            (Text (str "Children smiling and waving")) NaN ]
    | DEV =>
        [ corpus_row (Text (str "entailment"))
            (Text (str "Two women are embracing"))
            (Text (str "Two woman are holding packages")) ]
    | TEST =>
        [ corpus_row (Text (str "contradiction"))
            (Text (str "This church choir sings"))
            (Text (str "The church has cracks in the ceiling")) ]
    end.

Definition is_text (c : cell) : bool :=
  match c with Text _ => true | _ => false end.

Definition is_dash (s : pystr) : bool :=
  match s with
  | [c] => N.eqb c 45
  | _ => false
  end.

(** Rows with a missing value or without a gold label are rejected. *)
Definition accept_row (r : list cell) : bool :=
  forallb is_text r &&
  match r with
  | Text l :: _ => negb (is_dash l)
  | _ => false
  end.

(** A tokenizer that splits at blanks. *)
Fixpoint split_at_blanks (cur s : pystr) : list pystr :=
  match s with
  | [] =>
      match cur with [] => [] | _ => [cur] end
  | c :: s' =>
      if N.eqb c 32
      then match cur with
           | [] => split_at_blanks [] s'
           | _ => cur :: split_at_blanks [] s'
           end
      else split_at_blanks (cur ++ [c]) s'
  end.

(** The capital letters A to Z. *)
Definition ascii_capital (c : N) : bool :=
  (N.leb 65 c && N.leb c 90)%bool.

(** MATHEMATICAL BOLD CAPITAL A, U+1D400: an upper-case character without
    a lower-case form. *)
Definition bold_capital_a : N := 119808%N.

(** Case in these worlds.  [lower_text] turns A to Z into a to z and
    leaves every other character as it is; on the texts used here, which
    are ASCII with the one exception of U+1D400, this is what Python's
    [str.lower] does.  [isupper] holds of A to Z and of U+1D400, as
    Python's [str.isupper] does on them. *)
Definition lower_text (s : pystr) : pystr :=
  map (fun c => if ascii_capital c then (c + 32)%N else c) s.

Definition isupper (c : N) : bool :=
  (ascii_capital c || N.eqb c bold_capital_a)%bool.

(** An "encoder" that represents a sentence by its length. *)
Definition length_encoder (trained : bool) (ss : list string)
  : result (list (list R)) :=
  if trained
  then Ok (map (fun s => [0%R; INR (String.length s)]) ss)
  else Raise (ExternalError "the model has not been trained").

Definition world : World := {|
  Clf := bool;
  sys_version := "3.6.8";
  import_module := fun _ _ => Ok tt;
  str_lower := lower_text;
  char_isupper := isupper;
  load_pandas_df := fun _ file_split _ => Ok (corpus file_split);
  row_ok := accept_row;
  word_tokenize := split_at_blanks [];
  download_and_extract := fun dir => Ok (dir ++ "/vectors.txt")%string;
  GenSenClassifier := fun _ _ _ _ _ => Ok false;
  fit_raises := fun _ _ _ _ => None;
  fit_leaves := fun _ _ _ _ => true;
  represent := length_encoder;
  sb_glue := fun _ _ => Ok tt
|}.

(** A world whose corpus cannot be fetched. *)
Definition offline : World := {|
  Clf := bool;
  sys_version := "3.6.8";
  import_module := fun _ _ => Ok tt;
  str_lower := lower_text;
  char_isupper := isupper;
  load_pandas_df := fun _ _ _ => Raise (ExternalError "no network");
  row_ok := accept_row;
  word_tokenize := split_at_blanks [];
  download_and_extract := fun _ => Raise (ExternalError "no network");
  GenSenClassifier := fun _ _ _ _ _ => Ok false;
  fit_raises := fun _ _ _ _ => None;
  fit_leaves := fun _ _ _ _ => true;
  represent := length_encoder;
  sb_glue := fun _ _ => Ok tt
|}.

(** A world in which the file of one split is missing. *)
Definition missing (file_split : Split) : World := {|
  Clf := bool;
  sys_version := "3.6.8";
  import_module := fun _ _ => Ok tt;
  str_lower := lower_text;
  char_isupper := isupper;
  load_pandas_df := fun _ sp _ =>
    match file_split, sp with
    | TRAIN, TRAIN | DEV, DEV | TEST, TEST =>
        Raise (ExternalError "file not found")
    | _, _ => Ok (corpus sp)
    end;
  row_ok := accept_row;
  word_tokenize := split_at_blanks [];
  download_and_extract := fun dir => Ok (dir ++ "/vectors.txt")%string;
  GenSenClassifier := fun _ _ _ _ _ => Ok false;
  fit_raises := fun _ _ _ _ => None;
  fit_leaves := fun _ _ _ _ => true;
  represent := length_encoder;
  sb_glue := fun _ _ => Ok tt
|}.

(** A world in which training fails and leaves the classifier
    untrained. *)
Definition failing_fit : World := {|
  Clf := bool;
  sys_version := "3.6.8";
  import_module := fun _ _ => Ok tt;
  str_lower := lower_text;
  char_isupper := isupper;
  load_pandas_df := fun _ file_split _ => Ok (corpus file_split);
  row_ok := accept_row;
  word_tokenize := split_at_blanks [];
  download_and_extract := fun dir => Ok (dir ++ "/vectors.txt")%string;
  GenSenClassifier := fun _ _ _ _ _ => Ok false;
  fit_raises := fun _ _ _ _ => Some (ExternalError "CUDA out of memory");
  fit_leaves := fun c _ _ _ => c;
  represent := length_encoder;
  sb_glue := fun _ _ => Ok tt
|}.


(** A frame in the corpus layout whose one row has the sentence
    U+1D400. *)
Definition bold_frame : DataFrame :=
  mkDF Snli.corpus_columns
    [ corpus_row (Text (str "neutral")) (Text [bold_capital_a])
        (Text (str "a letter")) ].

(** The globals a successful run ends with (arbitrary if it failed). *)
Definition final_globals : Globals world :=
  match fst (run world) with
  | Ok g => g
  | Raise _ => fresh
  end.

Definition log : list event := snd (run world).

(** The globals once the three frames are loaded. *)
Definition loaded_globals : Globals world :=
  set_test world (corpus TEST)
    (set_dev world (corpus DEV)
       (set_train world (corpus TRAIN) fresh)).

(** The globals after section 1 (arbitrary if it failed). *)
Definition prepared_globals : Globals world :=
  match fst (run_data_preparation world) with
  | Ok g => g
  | Raise _ => fresh
  end.

(** The cleaned TRAIN frame (empty if cleaning failed). *)
Definition clean_train : DataFrame :=
  match pipeline world (corpus TRAIN) with
  | Ok df => df
  | Raise _ => mkDF [] []
  end.

End Demo.

(** ** Running the notebook in parts *)

(** The cells below the parameters cell. *)
Definition below_parameters (W : World) (g : Globals W) : M (Globals W) :=
  (g <- data_preparation W g ;;
   model_application W g)%nb.

(** The parameters bound to other values than the cell's own, the other
    names as in [g]. *)
Definition with_parameters (W : World) (e : option nat) (c p : string)
    (n : option nat) (g : Globals W) : Globals W :=
  mkGlobals W (Some e) (Some c) (Some p) (Some n)
    (train W g) (dev W g) (test W g) (pretrained_embedding_path W g)
    (clf W g) (sentences W g) (results W g).

Definition is_head (e : event) : bool :=
  match e with Call_head _ => true | _ => false end.

(** A call that takes parameters takes the current ones: the loader the
    base path and the row limit, the downloader the base path, the
    constructor the configuration file, the base path as its cache
    directory, the epoch limit, and the literal learning rate. *)
Definition uses_parameters (e : option nat) (c p : string)
    (n : option nat) (ev : event) : Prop :=
  match ev with
  | Call_load_pandas_df path _ limit => path = p /\ limit = n
  | Call_download_and_extract path => path = p
  | Call_GenSenClassifier cfg _ lr dir ep =>
      cfg = c /\ lr = learning_rate_literal /\ dir = p /\ ep = e
  | _ => True
  end.

(** The cleaned frame of a split in the demo world (empty if cleaning
    failed). *)
Definition demo_clean (file_split : Split) : DataFrame :=
  match pipeline Demo.world (Demo.corpus file_split) with
  | Ok df => df
  | Raise _ => mkDF [] []
  end.

(** The demo kernel when the two settings cells have run. *)
Definition demo_settings : Globals Demo.world :=
  with_parameters Demo.world None "gensen_config.json" "../../data" None
    fresh.

(** * Properties *)

(** ** Tactics for runs *)

(** Unfolding the cells down to the external calls, which stay folded. *)
Ltac unfold_cells :=
  unfold run, run_data_preparation, below_parameters, notebook,
    global_settings, data_preparation, model_application, cell_imports,
    cell_parameters, cell_load, cell_tokenize, cell_dev_head,
    cell_download, cell_init, cell_fit, timed_fit, cell_predict,
    clean_and_tokenize in *.

Ltac reduce_open :=
  cbv [bind call ret rd raise fst snd
       max_epoch config_filepath base_data_path nrows train dev test
       pretrained_embedding_path clf sentences results
       set_train set_dev set_test set_pretrained_embedding_path set_clf
       set_sentences set_results fresh] in *.

(** The same when the log so far is known, so that the log is computed. *)
Ltac reduce_cells := reduce_open; cbv [app] in *.

(** One external call: either it returned or it raised. *)
Ltac split_call :=
  match goal with
  | |- context [match ?r with Ok _ => _ | Raise _ => _ end] =>
      destruct r eqn:?
  | H : context [match ?r with Ok _ => _ | Raise _ => _ end] |- _ =>
      destruct r eqn:?
  end.

Ltac all_runs := unfold_cells; reduce_cells; repeat (split_call; reduce_cells).

Ltac no_units := repeat match goal with u : unit |- _ => destruct u end.

(** In a membership hypothesis over an explicit log, the calls one by
    one. *)
Ltac pick_call H :=
  cbn [In] in H;
  repeat (destruct H as [H | H]; [ try discriminate H | ]);
  try contradiction H.

Lemma imports_return_each (W : World) :
  imports_return W ->
  forall m ns, In (m, ns) imports -> import_module W m ns = Ok tt.
Proof.
  unfold imports_return. rewrite Forall_forall.
  intros H m ns Hin. exact (H (m, ns) Hin).
Qed.

Ltac use_imports H :=
  repeat match goal with
         | |- context [import_module ?W ?m ?ns] =>
             rewrite (imports_return_each W H m ns) by (cbn; auto 12)
         end.

(** ** The cleaning function *)

Lemma clean_and_tokenize_run (W : World) df tr :
  clean_and_tokenize W df tr = (pipeline W df, tr ++ cleaning_calls W df).
Proof.
  unfold clean_and_tokenize, pipeline, cleaning_calls, and_then.
  reduce_open.
  destruct (Snli.clean_cols df) as [d1 | e]; [ | reflexivity ].
  destruct (Snli.clean_rows (row_ok W) d1) as [d2 | e];
    [ | rewrite <- app_assoc; reflexivity ].
  destruct (Preprocess.to_lowercase (str_lower W) d2) as [d3 | e];
    [ | rewrite <- !app_assoc; reflexivity ].
  destruct (Preprocess.to_nltk_tokens (word_tokenize W) d3);
    rewrite <- !app_assoc; reflexivity.
Qed.

Lemma pipeline_steps (W : World) df d1 d2 d3 d4 :
  Snli.clean_cols df = Ok d1 ->
  Snli.clean_rows (row_ok W) d1 = Ok d2 ->
  Preprocess.to_lowercase (str_lower W) d2 = Ok d3 ->
  Preprocess.to_nltk_tokens (word_tokenize W) d3 = Ok d4 ->
  pipeline W df = Ok d4.
Proof.
  intros E1 E2 E3 E4. unfold pipeline.
  rewrite E1. cbn [and_then]. rewrite E2. cbn [and_then].
  rewrite E3. cbn [and_then]. exact E4.
Qed.

(** ** Complete runs *)

Lemma run_completed (W : World) (g : Globals W) (tr : list event) :
  run W = (Ok g, tr) ->
  exists v, returned W v /\ tr = complete_log W v /\ g = complete_globals W v.
Proof.
  intros H. all_runs; try discriminate H.
  injection H as <- <-. no_units.
  eexists (Build_Intermediates W _ _ _ _ _ _ _ _ _ _ _ _ _ _ _ _ _ _).
  split; [ | split ]; cycle 1.
  - reflexivity.
  - reflexivity.
  - unfold returned, fitted_clf.
    cbn [loaded_train loaded_dev loaded_test train_cols train_rows
         train_lower train_clean dev_cols dev_rows dev_lower dev_clean
         test_cols test_rows test_lower test_clean embedding_path new_clf
         similarity].
    split.
    + unfold imports_return, imports. repeat constructor; assumption.
    + repeat split; eassumption.
Qed.

(** Conversely, when every call but [fit] returns, the run completes. *)
Lemma complete_run (W : World) (v : Intermediates W) :
  returned W v ->
  run W = (Ok (complete_globals W v), complete_log W v).
Proof.
  unfold returned, fitted_clf.
  intros (E0 & E1 & E2 & E3 & E4 & E5 & E6 & E7 & E8 & E9 & E10 & E11 & E12
          & E13 & E14 & E15 & E16 & E17 & E18 & E19).
  unfold_cells. reduce_cells. use_imports E0. reduce_cells.
  rewrite E1, E2, E3, E4, E5, E6, E7, E8, E9, E10, E11, E12, E13, E14,
    E15, E16, E17. reduce_cells. rewrite E18. reduce_cells. rewrite E19.
  reflexivity.
Qed.

(** A complete run, read off its result. *)
Lemma run_ok_inv (W : World) (g : Globals W) :
  fst (run W) = Ok g ->
  exists v, returned W v /\ snd (run W) = complete_log W v
            /\ g = complete_globals W v.
Proof.
  intros Hg.
  destruct (run W) as [r tr] eqn:Hrun. cbn [fst snd] in *. subst r.
  exact (run_completed W g tr Hrun).
Qed.

(** ** C1 *)

Lemma cell_tokenize_run (W : World) g tr t d s :
  train W g = Some t -> dev W g = Some d -> test W g = Some s ->
  fst (cell_tokenize W g tr) =
    and_then (pipeline W t) (fun t' =>
    and_then (pipeline W d) (fun d' =>
    and_then (pipeline W s) (fun s' =>
      Ok (set_test W s' (set_dev W d' (set_train W t' g)))))).
Proof.
  destruct g; cbn [train dev test]; intros -> -> ->.
  unfold cell_tokenize. reduce_open.
  rewrite clean_and_tokenize_run.
  destruct (pipeline W t) as [t' | e]; cbn [and_then]; [ | reflexivity ].
  rewrite clean_and_tokenize_run.
  destruct (pipeline W d) as [d' | e]; cbn [and_then]; [ | reflexivity ].
  rewrite clean_and_tokenize_run.
  destruct (pipeline W s) as [s' | e]; reflexivity.
Qed.

(** C1.  [clean_and_tokenize] is the composition of [snli.clean_cols],
    [snli.clean_rows], [preprocess.to_lowercase] and
    [preprocess.to_nltk_tokens]: on every frame, and whatever was called
    before, it returns what the four functions chained in that order
    return, and it calls them in that order, each on the result of the one
    before.  The cell then applies this one function to [train], to [dev]
    and to [test], and rebinds each name to the result. *)
Theorem clean_and_tokenize_is_composition (W : World) :
  (forall df tr,
      clean_and_tokenize W df tr
      = (pipeline W df, tr ++ cleaning_calls W df)) /\
  (forall g tr t d s,
      train W g = Some t -> dev W g = Some d -> test W g = Some s ->
      fst (cell_tokenize W g tr) =
        and_then (pipeline W t) (fun t' =>
        and_then (pipeline W d) (fun d' =>
        and_then (pipeline W s) (fun s' =>
          Ok (set_test W s' (set_dev W d' (set_train W t' g))))))).
Proof.
  split.
  - apply clean_and_tokenize_run.
  - apply cell_tokenize_run.
Qed.

(** ** C2 *)

(** C2.  The stages of the script come in one fixed order: loading the
    data (three calls), cleaning and tokenizing (four calls on each of
    the three frames), instantiating the wrapper (one call), [fit] (one
    call), [predict] (one call), reporting (print, [to_dict], glue).  In
    every run, also one that an exception cuts short, the stages of the
    calls made so far are an initial part of [script_stages], so no stage
    is entered out of turn and none comes back once it is left; in a run
    that completes the stages are exactly [script_stages], so none is
    skipped and the wrapper is instantiated, fitted and asked to predict
    once each.  Stage by stage that is the order (a) to (e). *)
Theorem stages_in_fixed_order (W : World) :
  is_prefix stage_eqb (stages (snd (run W))) script_stages = true
  /\ (forall g, fst (run W) = Ok g ->
                stages (snd (run W)) = script_stages)
  /\ collapse script_stages = stage_order.
Proof.
  split; [ | split ].
  - all_runs; reflexivity.
  - intros g Hg.
    apply run_ok_inv in Hg as (v & _ & -> & _).
    reflexivity.
  - reflexivity.
Qed.

(** A run that an exception cuts short: without the corpus the script
    stops at the first call of the loader. *)
Example offline_run_stops_at_the_loader :
  run Demo.offline
  = (Raise (ExternalError "no network"),
     settings_log Demo.offline
     ++ [ Call_load_pandas_df "../../data" TRAIN None ]).
Proof. reflexivity. Qed.

(** ** C6 *)

(** C6.  The data is loaded by three calls of [snli.load_pandas_df], for
    TRAIN, DEV and TEST in this order, all three with the base path
    ['../../data'] and with [nrows=None]; only [file_split] differs.  No
    run calls the loader in any other way, and in a complete run each of
    the three calls returned a frame. *)
Theorem loads_differ_only_in_split (W : World) :
  is_prefix load_eqb (load_calls (snd (run W)))
    [ ("../../data", TRAIN, None); ("../../data", DEV, None);
      ("../../data", TEST, None) ] = true
  /\ (forall g, fst (run W) = Ok g ->
        load_calls (snd (run W))
        = [ ("../../data", TRAIN, None); ("../../data", DEV, None);
            ("../../data", TEST, None) ]
        /\ exists t d s : DataFrame,
             load_pandas_df W "../../data" TRAIN None = Ok t /\
             load_pandas_df W "../../data" DEV None = Ok d /\
             load_pandas_df W "../../data" TEST None = Ok s).
Proof.
  split.
  - all_runs; reflexivity.
  - intros g Hg.
    apply run_ok_inv in Hg as (v & Hv & -> & _).
    split; [ reflexivity | ].
    destruct Hv as (_ & E1 & E2 & E3 & _).
    exists (loaded_train v), (loaded_dev v), (loaded_test v).
    repeat split; assumption.
Qed.

(** ** C10 *)

Ltac find_call := lazy; repeat first [ left; reflexivity | right ].

(** C10, as stated, fails: where training raises, the [%%time] magic of
    the fit cell catches the exception and [predict] is called all the
    same, after a call of [fit] that has not completed. *)
Lemma predict_is_called_after_a_failed_fit :
  ~ (forall ss,
        In (Call_predict ss) (snd (run Demo.failing_fit)) ->
        exists c0 t d s,
          In (Call_fit t d s) (snd (run Demo.failing_fit)) /\
          fit_raises Demo.failing_fit c0 t d s = None).
Proof.
  intros H.
  destruct (H the_sentences) as (c0 & t & d & s & _ & E).
  - find_call.
  - discriminate E.
Qed.

(** C10, amended.  The wrapper is constructed once, [fit] is called once
    and [predict] is called once, in this order; no run uses it otherwise
    or in another order, and [predict] is never called before [fit] has
    been called.  In a complete run the constructor receives the path
    that the call of [download_and_extract] just before it returned,
    [fit] is called on the object the constructor returned, and [predict]
    on that object as the call of [fit] left it.  The call of [fit] has
    then ended, but it need not have returned: had it raised, [%%time]
    caught the exception. *)
Theorem wrapper_used_once_in_order (W : World) :
  is_prefix wrapper_use_eqb (wrapper_uses (snd (run W)))
    [Construct; CallFit; CallPredict] = true
  /\ (forall ss, In (Call_predict ss) (snd (run W)) ->
        exists t d s, In (Call_fit t d s) (snd (run W)))
  /\ (forall g, fst (run W) = Ok g ->
        wrapper_uses (snd (run W)) = [Construct; CallFit; CallPredict]
        /\ exists emb c0 t d s r,
             download_and_extract W "../../data" = Ok emb /\
             filter is_download_or_wrapper (snd (run W))
             = [ Call_download_and_extract "../../data";
                 Call_GenSenClassifier "gensen_config.json" emb
                   learning_rate_literal "../../data" None;
                 Call_fit t d s;
                 Call_predict the_sentences ] /\
             GenSenClassifier W "gensen_config.json" emb
               learning_rate_literal "../../data" None = Ok c0 /\
             clf W g = Some (fit_leaves W c0 t d s) /\
             Wrapper.predict (represent W) (fit_leaves W c0 t d s)
               the_sentences = Ok r).
Proof.
  split; [ | split ].
  - all_runs; reflexivity.
  - intros ss H.
    all_runs; pick_call H; do 3 eexists;
      cbn [In]; repeat first [ left; reflexivity | right ].
  - intros g Hg.
    apply run_ok_inv in Hg as (v & Hv & -> & ->).
    split; [ reflexivity | ].
    destruct Hv as (_ & _ & _ & _ & _ & _ & _ & _ & _ & _ & _ & _ & _ & _
                    & _ & _ & E16 & E17 & E18 & _).
    exists (embedding_path v), (new_clf v),
      (train_clean v), (dev_clean v), (test_clean v), (similarity v).
    repeat split; assumption.
Qed.

(** ** C4 *)

(** C4, as stated, fails: in the demo run some call goes to none of the
    three collaborators of the system overview ([preprocess.to_lowercase],
    [preprocess.to_nltk_tokens] and [sb.glue] do not, nor do [print] and
    the frame methods). *)
Lemma three_collaborators_do_not_cover_the_calls :
  ~ (forall e, In e (snd (run Demo.world)) ->
               goes_through three_collaborators e = true).
Proof.
  intros H.
  apply forallb_forall in H.
  assert (E : forallb (goes_through three_collaborators)
                (snd (run Demo.world)) = false) by (lazy; reflexivity).
  rewrite E in H. discriminate H.
Qed.

(** C4, amended.  Call by call, a complete run goes to the parties listed
    in [script_collaborators], in that order: Python itself (the import
    statements, [sys.path.append], [str.format], [print]), the SNLI
    module ([load_pandas_df], [clean_cols], [clean_rows]), the
    preprocessing module ([to_lowercase], [to_nltk_tokens]), frame
    methods ([head], [to_dict]), the vector downloader, the model
    wrapper, IPython's [%%time] magic around the call of [fit], and
    scrapbook ([sb.glue]).  A run cut short makes an initial part of
    these calls.  The calls to the wrapper in a complete run are exactly
    three: the constructor, [fit] and [predict]. *)
Theorem calls_go_to_listed_collaborators (W : World) :
  is_prefix collaborator_eqb (map collaborator_of (snd (run W)))
    script_collaborators = true
  /\ (forall g, fst (run W) = Ok g ->
        map collaborator_of (snd (run W)) = script_collaborators
        /\ exists emb t d s,
             filter is_wrapper_call (snd (run W))
             = [ Call_GenSenClassifier "gensen_config.json" emb
                   learning_rate_literal "../../data" None;
                 Call_fit t d s;
                 Call_predict the_sentences ]).
Proof.
  split.
  - all_runs; reflexivity.
  - intros g Hg.
    apply run_ok_inv in Hg as (v & _ & -> & _).
    split; [ reflexivity | ].
    exists (embedding_path v), (train_clean v), (dev_clean v),
      (test_clean v).
    reflexivity.
Qed.

(** ** C5 *)

Ltac split_name :=
  match goal with
  | H : context [match ?o with Some _ => _ | None => _ end] |- _ =>
      destruct o eqn:?
  end.

(** The cells between the tokenize cell and the fit cell leave [train],
    [dev] and [test] as they were. *)
Lemma between_keeps_frames (W : World) g tr g' tr' :
  between_tokenize_and_fit W g tr = (Ok g', tr') ->
  train W g' = train W g /\ dev W g' = dev W g /\ test W g' = test W g.
Proof.
  destruct g.
  unfold between_tokenize_and_fit, cell_dev_head, cell_download, cell_init.
  intros H. reduce_open.
  repeat (first [split_name | split_call]; try discriminate H).
  injection H as <- _. repeat split.
Qed.

(** The notebook, with the cells between tokenizing and fitting set
    apart. *)
Lemma notebook_regrouped (W : World) tr :
  notebook W tr =
  (g <- global_settings W fresh ;;
   g <- cell_load W g ;;
   g <- cell_tokenize W g ;;
   g <- between_tokenize_and_fit W g ;;
   g <- cell_fit W g ;;
   cell_predict W g)%nb tr.
Proof.
  unfold notebook, data_preparation, model_application,
    between_tokenize_and_fit, bind.
  destruct (global_settings W fresh tr) as [[g0 | e] tr0];
    [ | reflexivity ].
  destruct (cell_load W g0 tr0) as [[g1 | e] tr1]; [ | reflexivity ].
  destruct (cell_tokenize W g1 tr1) as [[g2 | e] tr2]; [ | reflexivity ].
  destruct (cell_dev_head W g2 tr2) as [[g3 | e] tr3]; [ | reflexivity ].
  destruct (cell_download W g3 tr3) as [[g4 | e] tr4]; [ | reflexivity ].
  destruct (cell_init W g4 tr4) as [[g5 | e] tr5]; reflexivity.
Qed.

(** C5.  Between tokenizing and fitting the script runs the cells
    [dev.head()], [download_and_extract] and the constructor call, and
    these leave [train], [dev] and [test] untouched.  So in a complete run
    the one call of [fit] receives exactly the three frames that the
    cleaning pipeline returned for the loaded TRAIN, DEV and TEST frames.
    The classifier the script ends with is the constructed object as the
    wrapper's [fit] left it, and the similarity result is what the
    wrapper's [predict] returned on it: the script computes neither. *)
Theorem fit_receives_cleaned_frames (W : World) :
  (forall tr,
      notebook W tr =
      (g <- global_settings W fresh ;;
       g <- cell_load W g ;;
       g <- cell_tokenize W g ;;
       g <- between_tokenize_and_fit W g ;;
       g <- cell_fit W g ;;
       cell_predict W g)%nb tr) /\
  (forall g tr g' tr',
      between_tokenize_and_fit W g tr = (Ok g', tr') ->
      train W g' = train W g /\ dev W g' = dev W g /\ test W g' = test W g)
  /\
  (forall g, fst (run W) = Ok g ->
     exists t0 d0 s0 t d s emb c0 r,
       load_pandas_df W "../../data" TRAIN None = Ok t0 /\
       load_pandas_df W "../../data" DEV None = Ok d0 /\
       load_pandas_df W "../../data" TEST None = Ok s0 /\
       pipeline W t0 = Ok t /\ pipeline W d0 = Ok d /\
       pipeline W s0 = Ok s /\
       filter is_fit (snd (run W)) = [Call_fit t d s] /\
       GenSenClassifier W "gensen_config.json" emb learning_rate_literal
         "../../data" None = Ok c0 /\
       clf W g = Some (fit_leaves W c0 t d s) /\
       Wrapper.predict (represent W) (fit_leaves W c0 t d s) the_sentences
       = Ok r /\
       results W g = Some r /\
       train W g = Some t /\ dev W g = Some d /\ test W g = Some s).
Proof.
  split; [ | split ].
  - apply notebook_regrouped.
  - apply between_keeps_frames.
  - intros g Hg.
    apply run_ok_inv in Hg as (v & Hv & -> & ->).
    destruct Hv as (_ & E1 & E2 & E3 & E4 & E5 & E6 & E7 & E8 & E9 & E10
                    & E11 & E12 & E13 & E14 & E15 & E16 & E17 & E18 & _).
    exists (loaded_train v), (loaded_dev v), (loaded_test v),
      (train_clean v), (dev_clean v), (test_clean v),
      (embedding_path v), (new_clf v), (similarity v).
    rewrite (pipeline_steps W _ _ _ _ _ E4 E5 E6 E7).
    rewrite (pipeline_steps W _ _ _ _ _ E8 E9 E10 E11).
    rewrite (pipeline_steps W _ _ _ _ _ E12 E13 E14 E15).
    repeat split; assumption || reflexivity.
Qed.

(** ** Frames through the cleaning steps *)

Lemma map_result_ok {A B} (f : A -> result B) l l' :
  map_result f l = Ok l' -> Forall2 (fun x y => f x = Ok y) l l'.
Proof.
  revert l'. induction l as [ | x l IH]; intros l' H; cbn in H.
  - injection H as <-. constructor.
  - destruct (f x) as [y | e] eqn:Hx; [ | discriminate H ].
    destruct (map_result f l) as [ys | e]; [ | discriminate H ].
    injection H as <-. constructor; [ exact Hx | apply IH; reflexivity ].
Qed.

Lemma tokenize_row_ok tok i j r r' :
  Preprocess.tokenize_row tok i j r = Ok r' ->
  exists a b,
    nth_error r i = Some (Text a) /\ nth_error r j = Some (Text b) /\
    r' = r ++ [Tokens (tok a); Tokens (tok b)].
Proof.
  unfold Preprocess.tokenize_row.
  destruct (nth_error r i) as [[a | | ] | ]; try discriminate.
  destruct (nth_error r j) as [[b | | ] | ]; try discriminate.
  intros H. injection H as <-. exists a, b. repeat split.
Qed.

Lemma to_nltk_tokens_ok tok df df' :
  Preprocess.to_nltk_tokens tok df = Ok df' ->
  exists i j,
    index_of "sentence1" (columns df) = Some i /\
    index_of "sentence2" (columns df) = Some j /\
    columns df' = columns df ++ Preprocess.token_cols /\
    Forall2 (fun r r' => Preprocess.tokenize_row tok i j r = Ok r')
      (rows df) (rows df').
Proof.
  unfold Preprocess.to_nltk_tokens.
  destruct (index_of "sentence1" (columns df)) as [i | ];
    [ | discriminate ].
  destruct (index_of "sentence2" (columns df)) as [j | ];
    [ | discriminate ].
  destruct (map_result _ (rows df)) as [rs | e] eqn:Hrs; [ | discriminate ].
  intros H. injection H as <-. exists i, j. cbn [columns rows].
  repeat split. apply map_result_ok. exact Hrs.
Qed.

(** A text cell of a lower-cased row is the lower-cased text of the cell
    it comes from. *)
Lemma nth_error_lowered f r i a' :
  nth_error (map (Preprocess.lower_cell f) r) i = Some (Text a') ->
  exists a, nth_error r i = Some (Text a) /\ a' = f a.
Proof.
  rewrite nth_error_map.
  destruct (nth_error r i) as [[s | ts | ] | ]; cbn; try discriminate.
  intros H. injection H as <-. exists s. split; reflexivity.
Qed.

(** What the four steps return, step by step. *)
Lemma pipeline_ok (W : World) df df' :
  pipeline W df = Ok df' ->
  exists d1,
    Snli.clean_cols df = Ok d1 /\
    Preprocess.to_nltk_tokens (word_tokenize W)
      (applymap (Preprocess.lower_cell (str_lower W))
         (mkDF (columns d1) (filter (row_ok W) (rows d1)))) = Ok df'.
Proof.
  unfold pipeline.
  destruct (Snli.clean_cols df) as [d1 | e]; [ | discriminate ].
  cbn. intros H. exists d1. split; [ reflexivity | exact H ].
Qed.

Lemma clean_cols_corpus df :
  in_corpus_layout df ->
  exists rs,
    Snli.clean_cols df = Ok (mkDF ["score"; "sentence1"; "sentence2"] rs)
    /\ Forall (fun r => List.length r = 3) rs.
Proof.
  destruct df as [cols rs]. unfold in_corpus_layout. cbn [columns rows].
  intros [-> Hrows].
  eexists. split; [ reflexivity | ].
  apply Forall_map. revert Hrows. apply Forall_impl.
  intros r Hr.
  do 15 (destruct r as [ | ? r]; [ discriminate Hr || reflexivity | ]).
  discriminate Hr.
Qed.

Lemma pipeline_clean (W : World) df df' :
  in_corpus_layout df -> pipeline W df = Ok df' -> clean_frame W df'.
Proof.
  intros Hdf Hp.
  apply pipeline_ok in Hp as (d1 & H1 & H4).
  apply clean_cols_corpus in Hdf as (rs & H1' & Hrs).
  rewrite H1' in H1. injection H1 as <-. cbn [columns rows] in H4.
  apply to_nltk_tokens_ok in H4 as (i & j & Hi & Hj & Hcols & Hrows).
  cbn in Hi, Hj. injection Hi as <-. injection Hj as <-.
  split; [ exact Hcols | ].
  cbn [applymap rows] in Hrows.
  assert (H3 : Forall (fun r => List.length r = 3)
                 (map (map (Preprocess.lower_cell (str_lower W)))
                    (filter (row_ok W) rs))).
  { apply Forall_map. apply Forall_forall. intros r Hr.
    rewrite length_map.
    apply filter_In in Hr as [Hr _].
    rewrite Forall_forall in Hrs. exact (Hrs r Hr). }
  clear Hrs. revert H3.
  induction Hrows as [ | r r' l l' Hr Hl IH]; intros H3.
  - constructor.
  - inversion H3 as [ | ? ? Hlen Hrest]; subst.
    constructor; [ | exact (IH Hrest) ].
    apply tokenize_row_ok in Hr as (a & b & Ha & Hb & ->).
    destruct r as [ | l0 [ | c1 [ | c2 [ | ? ?]]]]; try discriminate Hlen.
    cbn in Ha, Hb. injection Ha as ->. injection Hb as ->.
    exists l0, a, b. reflexivity.
Qed.

Lemma demo_run_completes : fst (run Demo.world) = Ok Demo.final_globals.
Proof. lazy. reflexivity. Qed.

(** ** C3 *)

(** C3, as stated, fails in its second part: the frames are not the only
    data or state of the notebook.  At the end of the demo run the
    embedding path, the classifier, the example sentences and the results
    are bound as well. *)
Lemma notebook_binds_more_than_the_frames :
  ~ (forall g, fst (run Demo.world) = Ok g ->
               pretrained_embedding_path Demo.world g = None /\
               clf Demo.world g = None /\
               sentences Demo.world g = None /\
               results Demo.world g = None).
Proof.
  intros H.
  destruct (H Demo.final_globals demo_run_completes) as (_ & _ & E & _).
  lazy in E. discriminate E.
Qed.

(** C3, amended.  When the loader returns frames in the corpus layout,
    then after the tokenize cell [train], [dev] and [test] each have
    exactly the columns [score], [sentence1], [sentence2],
    [sentence1_tokens] and [sentence2_tokens], and every row is a gold
    label, the two sentences, and the token lists of these two
    sentences.  The script holds more than these frames: a complete run
    ends with the embedding path, the classifier, the two example
    sentences and the similarity results bound as well. *)
Theorem cleaned_rows_are_label_pair_tokens (W : World) :
  (forall g tr,
      (forall p sp n df,
          load_pandas_df W p sp n = Ok df -> in_corpus_layout df) ->
      run_data_preparation W = (Ok g, tr) ->
      exists t d s,
        train W g = Some t /\ dev W g = Some d /\ test W g = Some s /\
        clean_frame W t /\ clean_frame W d /\ clean_frame W s) /\
  (forall g, fst (run W) = Ok g ->
     exists emb c r,
       pretrained_embedding_path W g = Some emb /\ clf W g = Some c /\
       sentences W g = Some the_sentences /\ results W g = Some r).
Proof.
  split.
  - intros g tr Hload H.
    unfold run_data_preparation, global_settings, data_preparation,
      cell_imports, cell_parameters, cell_load, cell_tokenize,
      cell_dev_head in H.
    reduce_cells.
    repeat (first [ rewrite clean_and_tokenize_run in H | split_call ];
            try discriminate H; reduce_cells).
    injection H as <- _.
    do 3 eexists.
    repeat split; try reflexivity;
      (eapply pipeline_clean; [ | eassumption ]; eapply Hload; eassumption).
  - intros g Hg.
    apply run_ok_inv in Hg as (v & _ & _ & ->).
    exists (embedding_path v), (fitted_clf W v), (similarity v).
    repeat split.
Qed.

(** ** C8 *)

(** C8, as stated, fails: the sentence U+1D400 is left as it is by
    lower-casing, so the token taken from it holds an upper-case
    character. *)
Lemma a_token_can_keep_an_uppercase_character :
  ~ (forall df tr df' tr',
        clean_and_tokenize Demo.world df tr = (Ok df', tr') ->
        Forall (fun r => forall ts, In (Tokens ts) r ->
                                    no_uppercase Demo.world ts)
               (rows df')).
Proof.
  intros H.
  assert (E : clean_and_tokenize Demo.world Demo.bold_frame []
              = (Ok (mkDF clean_columns
                       [ [ Text (str "neutral"); Text [Demo.bold_capital_a];
                           Text (str "a letter");
                           Tokens [[Demo.bold_capital_a]];
                           Tokens [str "a"; str "letter"] ] ]),
                 cleaning_calls Demo.world Demo.bold_frame))
    by (rewrite clean_and_tokenize_run; lazy; reflexivity).
  specialize (H _ _ _ _ E). cbn [rows] in H.
  inversion H as [ | r rs Hr _]; subst.
  specialize (Hr [[Demo.bold_capital_a]]).
  assert (Hin : In (Tokens [[Demo.bold_capital_a]])
                  [ Text (str "neutral"); Text [Demo.bold_capital_a];
                    Text (str "a letter"); Tokens [[Demo.bold_capital_a]];
                    Tokens [str "a"; str "letter"] ])
    by (cbn [In]; auto 6).
  specialize (Hr Hin).
  inversion Hr as [ | t ts Ht _]; subst.
  lazy in Ht. discriminate Ht.
Qed.

(** C8, amended.  In every frame [clean_and_tokenize] returns, the last
    two columns are [sentence1_tokens] and [sentence2_tokens], and in
    every row their cells are the tokenizer's output on the row's
    [sentence1] and [sentence2] cells, which are lower-cased texts: the
    sentences are lower-cased before they are tokenized.  So a token
    holds an upper-case character only where lower-casing left one in the
    sentence or the tokenizer put one there. *)
Theorem tokens_come_from_lowercased_sentences (W : World) df tr df' tr' :
  clean_and_tokenize W df tr = (Ok df', tr') ->
  exists cols i j,
    columns df' = cols ++ ["sentence1_tokens"; "sentence2_tokens"] /\
    index_of "sentence1" cols = Some i /\
    index_of "sentence2" cols = Some j /\
    Forall (fun r => exists r0 a b,
                r = r0 ++ [ Tokens (word_tokenize W (str_lower W a));
                            Tokens (word_tokenize W (str_lower W b)) ] /\
                nth_error r0 i = Some (Text (str_lower W a)) /\
                nth_error r0 j = Some (Text (str_lower W b)))
           (rows df').
Proof.
  intros H.
  rewrite clean_and_tokenize_run in H. injection H as Hp _.
  apply pipeline_ok in Hp as (d1 & _ & H4).
  apply to_nltk_tokens_ok in H4 as (i & j & Hi & Hj & Hcols & Hrows).
  cbn [applymap columns rows] in *.
  exists (columns d1), i, j.
  split; [ exact Hcols | ]. split; [ exact Hi | ]. split; [ exact Hj | ].
  remember (filter (row_ok W) (rows d1)) as kept eqn:Hk. clear Hk.
  revert Hrows. generalize (rows df'). clear Hcols.
  induction kept as [ | r kept IH]; intros rs Hrows; cbn in Hrows;
    inversion Hrows as [ | ? r' ? rs' Hr Hrest]; subst.
  - constructor.
  - constructor; [ | exact (IH rs' Hrest) ].
    apply tokenize_row_ok in Hr as (a' & b' & Ha & Hb & ->).
    destruct (nth_error_lowered _ _ _ _ Ha) as (a & _ & ->).
    destruct (nth_error_lowered _ _ _ _ Hb) as (b & _ & ->).
    exists (map (Preprocess.lower_cell (str_lower W)) r), a, b.
    repeat split; assumption.
Qed.

(** ** C9 *)

Section Pearson.

Local Open Scope R_scope.
Import Wrapper.







End Pearson.



(** ** The demo world meets the assumptions *)

Lemma demo_corpus_layout p sp n df :
  load_pandas_df Demo.world p sp n = Ok df -> in_corpus_layout df.
Proof.
  cbn. intros H. injection H as <-.
  split; [ reflexivity | ].
  destruct sp; repeat constructor.
Qed.

Lemma demo_imports_return (W : World) :
  import_module W = (fun _ _ => Ok tt) -> imports_return W.
Proof.
  intros E. unfold imports_return. rewrite E. repeat constructor.
Qed.


(** ** The theorems at the demo world *)

Lemma clean_and_tokenize_is_composition_witness :
  fst (cell_tokenize Demo.world Demo.loaded_globals [])
  = and_then (pipeline Demo.world (Demo.corpus TRAIN)) (fun t' =>
    and_then (pipeline Demo.world (Demo.corpus DEV)) (fun d' =>
    and_then (pipeline Demo.world (Demo.corpus TEST)) (fun s' =>
      Ok (set_test Demo.world s'
            (set_dev Demo.world d'
               (set_train Demo.world t' Demo.loaded_globals)))))).
Proof.
  exact (proj2 (clean_and_tokenize_is_composition Demo.world)
           Demo.loaded_globals [] (Demo.corpus TRAIN) (Demo.corpus DEV)
           (Demo.corpus TEST) eq_refl eq_refl eq_refl).
Defined.

Lemma stages_in_fixed_order_witness :
  stages Demo.log = script_stages.
Proof.
  exact (proj1 (proj2 (stages_in_fixed_order Demo.world))
           Demo.final_globals demo_run_completes).
Defined.

Lemma cleaned_rows_are_label_pair_tokens_witness :
  (exists t d s,
      train Demo.world Demo.prepared_globals = Some t /\
      dev Demo.world Demo.prepared_globals = Some d /\
      test Demo.world Demo.prepared_globals = Some s /\
      clean_frame Demo.world t /\ clean_frame Demo.world d /\
      clean_frame Demo.world s) /\
  (exists emb c r,
      pretrained_embedding_path Demo.world Demo.final_globals = Some emb /\
      clf Demo.world Demo.final_globals = Some c /\
      sentences Demo.world Demo.final_globals = Some the_sentences /\
      results Demo.world Demo.final_globals = Some r).
Proof.
  split.
  - apply (proj1 (cleaned_rows_are_label_pair_tokens Demo.world)
             Demo.prepared_globals
             (snd (run_data_preparation Demo.world))).
    + exact demo_corpus_layout.
    + lazy. reflexivity.
  - exact (proj2 (cleaned_rows_are_label_pair_tokens Demo.world)
             Demo.final_globals demo_run_completes).
Defined.

Lemma calls_go_to_listed_collaborators_witness :
  map collaborator_of Demo.log = script_collaborators /\
  exists emb t d s,
    filter is_wrapper_call Demo.log
    = [ Call_GenSenClassifier "gensen_config.json" emb
          learning_rate_literal "../../data" None;
        Call_fit t d s;
        Call_predict the_sentences ].
Proof.
  exact (proj2 (calls_go_to_listed_collaborators Demo.world)
           Demo.final_globals demo_run_completes).
Defined.

Lemma fit_receives_cleaned_frames_witness :
  exists t0 d0 s0 t d s emb c0 r,
    load_pandas_df Demo.world "../../data" TRAIN None = Ok t0 /\
    load_pandas_df Demo.world "../../data" DEV None = Ok d0 /\
    load_pandas_df Demo.world "../../data" TEST None = Ok s0 /\
    pipeline Demo.world t0 = Ok t /\ pipeline Demo.world d0 = Ok d /\
    pipeline Demo.world s0 = Ok s /\
    filter is_fit Demo.log = [Call_fit t d s] /\
    GenSenClassifier Demo.world "gensen_config.json" emb
      learning_rate_literal "../../data" None = Ok c0 /\
    clf Demo.world Demo.final_globals
    = Some (fit_leaves Demo.world c0 t d s) /\
    Wrapper.predict (represent Demo.world) (fit_leaves Demo.world c0 t d s)
      the_sentences = Ok r /\
    results Demo.world Demo.final_globals = Some r /\
    train Demo.world Demo.final_globals = Some t /\
    dev Demo.world Demo.final_globals = Some d /\
    test Demo.world Demo.final_globals = Some s.
Proof.
  exact (proj2 (proj2 (fit_receives_cleaned_frames Demo.world))
           Demo.final_globals demo_run_completes).
Defined.

Lemma loads_differ_only_in_split_witness :
  load_calls Demo.log
  = [ ("../../data", TRAIN, None); ("../../data", DEV, None);
      ("../../data", TEST, None) ].
Proof.
  exact (proj1 (proj2 (loads_differ_only_in_split Demo.world)
                  Demo.final_globals demo_run_completes)).
Defined.

Lemma tokens_come_from_lowercased_sentences_witness :
  exists cols i j,
    columns Demo.clean_train
    = cols ++ ["sentence1_tokens"; "sentence2_tokens"] /\
    index_of "sentence1" cols = Some i /\
    index_of "sentence2" cols = Some j /\
    Forall (fun r => exists r0 a b,
                r = r0 ++ [ Tokens (word_tokenize Demo.world
                                      (str_lower Demo.world a));
                            Tokens (word_tokenize Demo.world
                                      (str_lower Demo.world b)) ] /\
                nth_error r0 i = Some (Text (str_lower Demo.world a)) /\
                nth_error r0 j = Some (Text (str_lower Demo.world b)))
           (rows Demo.clean_train).
Proof.
  apply (tokens_come_from_lowercased_sentences Demo.world
           (Demo.corpus TRAIN) [] Demo.clean_train
           (snd (clean_and_tokenize Demo.world (Demo.corpus TRAIN) []))).
  lazy. reflexivity.
Defined.


Lemma wrapper_used_once_in_order_witness :
  (exists t d s, In (Call_fit t d s) Demo.log) /\
  wrapper_uses Demo.log = [Construct; CallFit; CallPredict].
Proof.
  destruct (wrapper_used_once_in_order Demo.world) as (_ & H2 & H3).
  split.
  - apply (H2 the_sentences). find_call.
  - exact (proj1 (H3 Demo.final_globals demo_run_completes)).
Defined.

(** * Further properties of the cells *)

(** ** X2: the parameters reach every call that takes them *)

(** X2.  Whatever values the four parameters are bound to when the cells
    below the parameters cell run, every call of the loader gets the
    current base path and row limit, for TRAIN, DEV and TEST in this
    order, the downloader gets the base path, and the constructor gets
    the configuration file, the base path as cache directory, the epoch
    limit and the learning rate 0.0001.  This holds for every run, also
    one cut short. *)
Theorem parameters_reach_the_calls (W : World) e c p n (g0 : Globals W) :
  let log := snd (below_parameters W (with_parameters W e c p n g0) []) in
  Forall (uses_parameters e c p n) log /\
  exists k,
    load_calls log = firstn k [(p, TRAIN, n); (p, DEV, n); (p, TEST, n)].
Proof.
  destruct g0. unfold below_parameters, with_parameters.
  all_runs;
    (split;
     [ repeat constructor
     | first [ exists 0; reflexivity | exists 1; reflexivity
             | exists 2; reflexivity | exists 3; reflexivity ] ]).
Qed.

(** ** X4: what has happened whenever the wrapper is called *)

(** X4.  In every run, also one that fails later: when the constructor is
    called, its embedding path is what [download_and_extract] returned;
    when [fit] is called, the three frames it receives are the cleaned
    TRAIN, DEV and TEST frames, in this order, and the classifier has been
    constructed; when [predict] is called, it is called on the two example
    sentences, and [fit] has been called before on the constructed
    classifier (that call may have raised: [%%time] catches the
    exception). *)
Theorem wrapper_calls_have_their_inputs (W : World) :
  (forall cfg emb lr dir ep,
      In (Call_GenSenClassifier cfg emb lr dir ep) (snd (run W)) ->
      download_and_extract W "../../data" = Ok emb) /\
  (forall t d s,
      In (Call_fit t d s) (snd (run W)) ->
      exists t0 d0 s0 emb c0,
        load_pandas_df W "../../data" TRAIN None = Ok t0 /\
        load_pandas_df W "../../data" DEV None = Ok d0 /\
        load_pandas_df W "../../data" TEST None = Ok s0 /\
        pipeline W t0 = Ok t /\ pipeline W d0 = Ok d /\
        pipeline W s0 = Ok s /\
        download_and_extract W "../../data" = Ok emb /\
        GenSenClassifier W "gensen_config.json" emb learning_rate_literal
          "../../data" None = Ok c0) /\
  (forall ss,
      In (Call_predict ss) (snd (run W)) ->
      ss = the_sentences /\
      exists t d s emb c0,
        In (Call_fit t d s) (snd (run W)) /\
        GenSenClassifier W "gensen_config.json" emb learning_rate_literal
          "../../data" None = Ok c0).
Proof.
  split; [ | split ].
  - intros cfg emb lr dir ep H.
    all_runs; pick_call H; injection H as <- <- <- <- <-;
      first [ assumption | reflexivity ].
  - intros t d s H.
    all_runs; pick_call H; injection H as <- <- <-;
      do 5 eexists; repeat split;
      try first [ eassumption | reflexivity ];
      (eapply pipeline_steps; eassumption).
  - intros ss H.
    all_runs; pick_call H; injection H as <-;
      (split; [ reflexivity | ]);
      do 5 eexists; (split; [ | eassumption ]);
      cbn [In]; repeat first [ left; reflexivity | right ].
Qed.

Lemma wrapper_calls_have_their_inputs_witness :
  download_and_extract Demo.world "../../data"
  = Ok "../../data/vectors.txt" /\
  (exists t0 d0 s0 emb c0,
      load_pandas_df Demo.world "../../data" TRAIN None = Ok t0 /\
      load_pandas_df Demo.world "../../data" DEV None = Ok d0 /\
      load_pandas_df Demo.world "../../data" TEST None = Ok s0 /\
      pipeline Demo.world t0 = Ok (demo_clean TRAIN) /\
      pipeline Demo.world d0 = Ok (demo_clean DEV) /\
      pipeline Demo.world s0 = Ok (demo_clean TEST) /\
      download_and_extract Demo.world "../../data" = Ok emb /\
      GenSenClassifier Demo.world "gensen_config.json" emb
        learning_rate_literal "../../data" None = Ok c0) /\
  (the_sentences = the_sentences /\
   exists t d s emb c0,
     In (Call_fit t d s) (snd (run Demo.world)) /\
     GenSenClassifier Demo.world "gensen_config.json" emb
       learning_rate_literal "../../data" None = Ok c0).
Proof.
  destruct (wrapper_calls_have_their_inputs Demo.world) as (H1 & H2 & H3).
  split; [ | split ].
  - apply (H1 "gensen_config.json" "../../data/vectors.txt"
             learning_rate_literal "../../data" None).
    find_call.
  - apply (H2 (demo_clean TRAIN) (demo_clean DEV) (demo_clean TEST)).
    find_call.
  - apply (H3 the_sentences). find_call.
Defined.

(** ** X5: a failed load ends the run *)

(** X5.  When the imports return and the loader raises, the run ends with
    the exception of the first load that failed, in the order TRAIN, DEV,
    TEST, and that load is its last call: no later split is loaded, no
    frame is cleaned, nothing is downloaded and the wrapper is not
    touched. *)
Theorem failed_load_stops_the_run (W : World) :
  imports_return W ->
  (forall e,
      load_pandas_df W "../../data" TRAIN None = Raise e ->
      run W = (Raise e,
               settings_log W
               ++ [ Call_load_pandas_df "../../data" TRAIN None ])) /\
  (forall t e,
      load_pandas_df W "../../data" TRAIN None = Ok t ->
      load_pandas_df W "../../data" DEV None = Raise e ->
      run W = (Raise e,
               settings_log W
               ++ [ Call_load_pandas_df "../../data" TRAIN None;
                    Call_load_pandas_df "../../data" DEV None ])) /\
  (forall t d e,
      load_pandas_df W "../../data" TRAIN None = Ok t ->
      load_pandas_df W "../../data" DEV None = Ok d ->
      load_pandas_df W "../../data" TEST None = Raise e ->
      run W = (Raise e,
               settings_log W
               ++ [ Call_load_pandas_df "../../data" TRAIN None;
                    Call_load_pandas_df "../../data" DEV None;
                    Call_load_pandas_df "../../data" TEST None ])).
Proof.
  intros Himp.
  split; [ | split ].
  - intros e E1.
    unfold_cells. reduce_cells. use_imports Himp. reduce_cells.
    rewrite E1. reflexivity.
  - intros t e E1 E2.
    unfold_cells. reduce_cells. use_imports Himp. reduce_cells.
    rewrite E1. reduce_cells. rewrite E2. reflexivity.
  - intros t d e E1 E2 E3.
    unfold_cells. reduce_cells. use_imports Himp. reduce_cells.
    rewrite E1. reduce_cells. rewrite E2. reduce_cells. rewrite E3.
    reflexivity.
Qed.

Lemma failed_load_stops_the_run_witness :
  run (Demo.missing TRAIN)
  = (Raise (ExternalError "file not found"),
     settings_log (Demo.missing TRAIN)
     ++ [ Call_load_pandas_df "../../data" TRAIN None ]) /\
  run (Demo.missing DEV)
  = (Raise (ExternalError "file not found"),
     settings_log (Demo.missing DEV)
     ++ [ Call_load_pandas_df "../../data" TRAIN None;
          Call_load_pandas_df "../../data" DEV None ]) /\
  run (Demo.missing TEST)
  = (Raise (ExternalError "file not found"),
     settings_log (Demo.missing TEST)
     ++ [ Call_load_pandas_df "../../data" TRAIN None;
          Call_load_pandas_df "../../data" DEV None;
          Call_load_pandas_df "../../data" TEST None ]).
Proof.
  split; [ | split ].
  - exact (proj1 (failed_load_stops_the_run (Demo.missing TRAIN)
                    (demo_imports_return (Demo.missing TRAIN)
                       eq_refl))
             (ExternalError "file not found") eq_refl).
  - exact (proj1 (proj2 (failed_load_stops_the_run (Demo.missing DEV)
                           (demo_imports_return (Demo.missing DEV)
                              eq_refl)))
             (Demo.corpus TRAIN) (ExternalError "file not found")
             eq_refl eq_refl).
  - exact (proj2 (proj2 (failed_load_stops_the_run (Demo.missing TEST)
                           (demo_imports_return (Demo.missing TEST)
                              eq_refl)))
             (Demo.corpus TRAIN) (Demo.corpus DEV)
             (ExternalError "file not found") eq_refl eq_refl eq_refl).
Defined.

(** ** X6: section 2 run without section 1 *)

(** X6.  When section 2 is run on a kernel that holds the parameters but
    no [train] frame, [fit] is never called.  The fit cell does not fail
    for that: looking up [train] raises [NameError] inside the [%%time]
    magic, which catches it, and when the download and the constructor
    have returned, [predict] is called next, on a classifier that was
    never fitted. *)
Theorem section2_without_section1 (W : World) (g : Globals W) p c e :
  base_data_path W g = Some p ->
  config_filepath W g = Some c ->
  max_epoch W g = Some e ->
  train W g = None ->
  (forall t d s, ~ In (Call_fit t d s) (snd (model_application W g []))) /\
  (forall emb c0,
      download_and_extract W p = Ok emb ->
      GenSenClassifier W c emb learning_rate_literal p e = Ok c0 ->
      exists rest,
        snd (model_application W g [])
        = [ Call_download_and_extract p;
            Call_GenSenClassifier c emb learning_rate_literal p e;
            Magic_time;
            Time_report (Some (NameError "train"));
            Call_predict the_sentences ] ++ rest).
Proof.
  destruct g. cbn [base_data_path config_filepath max_epoch train].
  intros -> -> -> ->.
  split.
  - intros t d s H.
    unfold model_application in H. all_runs; pick_call H.
  - intros emb c0 E1 E2.
    unfold model_application. unfold_cells. reduce_cells.
    rewrite E1. reduce_cells. rewrite E2. reduce_cells.
    repeat (split_call; reduce_cells); eexists; reflexivity.
Qed.

Lemma section2_without_section1_witness :
  (forall t d s,
      ~ In (Call_fit t d s)
          (snd (model_application Demo.world demo_settings []))) /\
  exists rest,
    snd (model_application Demo.world demo_settings [])
    = [ Call_download_and_extract "../../data";
        Call_GenSenClassifier "gensen_config.json" "../../data/vectors.txt"
          learning_rate_literal "../../data" None;
        Magic_time;
        Time_report (Some (NameError "train"));
        Call_predict the_sentences ] ++ rest.
Proof.
  destruct (section2_without_section1 Demo.world demo_settings
              "../../data" "gensen_config.json" None
              eq_refl eq_refl eq_refl eq_refl) as (H1 & H2).
  split.
  - exact H1.
  - exact (H2 "../../data/vectors.txt" false eq_refl eq_refl).
Defined.

(** ** X7: the frames put on display *)

(** X7.  In a complete run two frames are displayed with [head()]: first
    the TRAIN frame as loaded, before any cleaning, then the DEV frame as
    cleaned and tokenized.  Both calls only inspect: the frames bound to
    the names at the end are the cleaned ones. *)
Theorem displayed_frames (W : World) (g : Globals W) :
  fst (run W) = Ok g ->
  exists t0 d0 d,
    load_pandas_df W "../../data" TRAIN None = Ok t0 /\
    load_pandas_df W "../../data" DEV None = Ok d0 /\
    pipeline W d0 = Ok d /\
    filter is_head (snd (run W)) = [Call_head t0; Call_head d] /\
    dev W g = Some d.
Proof.
  intros Hg.
  apply run_ok_inv in Hg as (v & Hv & -> & ->).
  destruct Hv as (_ & E1 & E2 & _ & _ & _ & _ & _ & E8 & E9 & E10 & E11
                  & _).
  exists (loaded_train v), (loaded_dev v), (dev_clean v).
  repeat split; try assumption.
  exact (pipeline_steps W _ _ _ _ _ E8 E9 E10 E11).
Qed.

Lemma displayed_frames_witness :
  exists t0 d0 d,
    load_pandas_df Demo.world "../../data" TRAIN None = Ok t0 /\
    load_pandas_df Demo.world "../../data" DEV None = Ok d0 /\
    pipeline Demo.world d0 = Ok d /\
    filter is_head (snd (run Demo.world)) = [Call_head t0; Call_head d] /\
    dev Demo.world Demo.final_globals = Some d.
Proof.
  exact (displayed_frames Demo.world Demo.final_globals demo_run_completes).
Defined.

(** ** X9: what is reported *)

(** X9.  In a complete run, whatever the network computes, the frame
    printed, the frame converted with [to_dict()] and glued under the
    name "results", and the value bound to [results] are one value: the
    one [clf.predict] returned for the two example sentences.  Nothing
    else is glued, and the banner is printed just before the frame. *)
Theorem reported_value_is_predict_result (W : World) (g : Globals W) :
  fst (run W) = Ok g ->
  exists c1 r,
    clf W g = Some c1 /\
    Wrapper.predict (represent W) c1 the_sentences = Ok r /\
    results W g = Some r /\
    exists before,
      snd (run W)
      = before ++ [ Call_predict the_sentences;
                    Call_print (PStr similarity_banner);
                    Call_print (PFrame r);
                    Call_to_dict r;
                    Call_glue "results" (to_dict r) ] /\
      filter is_report before = [].
Proof.
  intros Hg.
  apply run_ok_inv in Hg as (v & Hv & -> & ->).
  destruct Hv as (_ & _ & _ & _ & _ & _ & _ & _ & _ & _ & _ & _ & _ & _
                  & _ & _ & _ & _ & E18 & _).
  exists (fitted_clf W v), (similarity v).
  split; [ reflexivity | ].
  split; [ exact E18 | ].
  split; [ reflexivity | ].
  exists (firstn 34 (complete_log W v)).
  split; reflexivity.
Qed.

Lemma reported_value_is_predict_result_witness :
  exists c1 r,
    clf Demo.world Demo.final_globals = Some c1 /\
    Wrapper.predict (represent Demo.world) c1 the_sentences = Ok r /\
    results Demo.world Demo.final_globals = Some r /\
    exists before,
      snd (run Demo.world)
      = before ++ [ Call_predict the_sentences;
                    Call_print (PStr similarity_banner);
                    Call_print (PFrame r);
                    Call_to_dict r;
                    Call_glue "results" (to_dict r) ] /\
      filter is_report before = [].
Proof.
  exact (reported_value_is_predict_result Demo.world Demo.final_globals
           demo_run_completes).
Defined.
